(** * MCP client: session lifecycle, read loop and model validators

    A shallow embedding of [src/mcp_client.py] and [src/utils/helpers.py].

    Python strings are modelled by [string]; every [ascii] stands for a code
    point below 256.  Calls into libraries and into the outside world
    (terminal, cloud provider, child process, language model) are oracles
    over an abstract world [W], threaded explicitly.  A trace of events
    records what the program did to the outside. *)

From Stdlib Require Import String Ascii List Bool Arith ZArith QArith Lia.
Import ListNotations.
Close Scope Q_scope.
Open Scope string_scope.
Set Warnings "-register-all".

(** ** Python string operations *)

Module PyStr.

(** [sub in s] *)
Fixpoint contains (sub s : string) : bool :=
  String.prefix sub s ||
  match s with
  | EmptyString => false
  | String _ s' => contains sub s'
  end.

(** [s.endswith(suffix)] *)
Fixpoint endswith (s suffix : string) : bool :=
  String.eqb s suffix ||
  match s with
  | EmptyString => false
  | String _ s' => endswith s' suffix
  end.

(** [str.isspace] on one code point below 256. *)
Definition isspace (c : ascii) : bool :=
  let n := nat_of_ascii c in
  (((9 <=? n) && (n <=? 13)) || ((28 <=? n) && (n <=? 32))
   || (n =? 133) || (n =? 160))%nat.

(** [str.lower] on one code point below 256. *)
Definition lower_char (c : ascii) : ascii :=
  let n := nat_of_ascii c in
  if (((65 <=? n) && (n <=? 90))
      || ((192 <=? n) && (n <=? 222) && negb (n =? 215)))%nat
  then ascii_of_nat (n + 32) else c.

Fixpoint lower (s : string) : string :=
  match s with
  | EmptyString => EmptyString
  | String c s' => String (lower_char c) (lower s')
  end.

Fixpoint lstrip (s : string) : string :=
  match s with
  | EmptyString => EmptyString
  | String c s' => if isspace c then lstrip s' else s
  end.

Fixpoint rstrip (s : string) : string :=
  match s with
  | EmptyString => EmptyString
  | String c s' =>
      let r := rstrip s' in
      if isspace c && String.eqb r EmptyString then EmptyString
      else String c r
  end.

(** [s.strip()] *)
Definition strip (s : string) : string := rstrip (lstrip s).

(** The newline character. *)
Definition nl : string := String (ascii_of_nat 10) EmptyString.

(** [s.split(sep)] for a separator of one character. *)
Fixpoint split (sep : ascii) (s : string) : list string :=
  match s with
  | EmptyString => [EmptyString]
  | String c s' =>
      if Ascii.eqb c sep then EmptyString :: split sep s'
      else match split sep s' with
           | [] => [String c EmptyString]
           | p :: ps => String c p :: ps
           end
  end.

(** [sep.join(parts)] *)
Fixpoint join (sep : string) (parts : list string) : string :=
  match parts with
  | [] => EmptyString
  | [p] => p
  | p :: ps => p ++ sep ++ join sep ps
  end.

End PyStr.

(** ** Exceptions and results *)

Inductive exn : Type :=
| ValueError (msg : string)
| ClientError (code : string) (msg : string)
| EOFError
| OtherException (name : string) (msg : string)
| KeyboardInterrupt
| SystemExit (status : Z)
| CancelledError.

(** [isinstance(e, Exception)]: the last three derive from [BaseException]
    only. *)
Definition is_Exception (e : exn) : bool :=
  match e with
  | KeyboardInterrupt | SystemExit _ | CancelledError => false
  | _ => true
  end.

(** [str(e)] *)
Definition str_exn (e : exn) : string :=
  match e with
  | ValueError msg => msg
  | ClientError _ msg => msg
  | EOFError => "EOF when reading a line"
  | OtherException _ msg => msg
  | KeyboardInterrupt => ""
  | SystemExit _ => ""
  | CancelledError => ""
  end.

Inductive outcome (A : Type) : Type :=
| Return (a : A)
| Raise (e : exn).
Arguments Return {A} a.
Arguments Raise {A} e.

(** JSON-like values of the request bodies. *)
Inductive json : Type :=
| JStr (s : string)
| JInt (z : Z)
| JFloat (q : Q)
| JList (l : list json)
| JObj (fields : list (string * json)).

(** A Python dict with string keys, in insertion order. *)
Definition dict (V : Type) : Type := list (string * V).

Definition keys {V} (d : dict V) : list string := map fst d.

(** [key in d] *)
Definition dict_mem {V} (key : string) (d : dict V) : bool :=
  existsb (String.eqb key) (keys d).

(** ** Events, client object and program state *)

(** An argument of [print]. *)
Inductive pyval : Type :=
| PyStr (s : string)
| PyStrList (l : list string).

Record StdioServerParameters : Type := {
  command : string;
  args : list string;
  env : option (dict string)
}.

(** The async context managers entered on the exit stack.  The stdio
    transport owns both the child process and the pair of byte streams. *)
Inductive context : Type :=
| StdioTransport (params : StdioServerParameters)
| SessionContext.

Record Tool : Type := {
  tool_name : string;
  tool_description : string
}.

Inductive event : Type :=
| EvPrint (args : list pyval)
| EvInvokeModel (modelId : string) (body : json) (failure : option exn)
| EvStdioClient (params : StdioServerParameters)
| EvAcquire (c : context)
| EvRelease (c : context)
| EvCleanup
| EvProcessQuery (query : string)
| EvThink
| EvAct (tool : string) (tool_input : string).

Record ChatBedrockConverse : Type := {
  model : string;
  temperature : Z;
  max_tokens : option Z
}.

Record MCPClient : Type := {
  session : option unit;
  exit_stack : list context;
  llm : option ChatBedrockConverse
}.

(** The [output] entry of an agent response: the content blocks of the
    model's last message (their texts), or a plain string. *)
Inductive agent_output : Type :=
| OutBlocks (texts : list string)
| OutStr (text : string).

(** What the model proposes at one Thinking step. *)
Inductive agent_step : Type :=
| ToolCall (tool : string) (tool_input : string)
| FinalAnswer (output : agent_output)
| Unparsable.

(** One record of the intermediate trace: action and observation. *)
Definition scratchpad : Type := list (string * string * string).

Section World.

(** The outside world and the library calls that act on it. *)
Variable W : Type.

Record oracles : Type := {
  input_ : string -> W -> outcome string * W;
  boto3_client : string -> W -> outcome unit * W;
  new_ChatBedrockConverse : ChatBedrockConverse -> W -> outcome unit * W;
  invoke_model : string -> json -> W -> outcome unit * W;
  stdio_client : StdioServerParameters -> W -> outcome unit * W;
  ClientSession_enter : W -> outcome unit * W;
  aexit : context -> option exn -> W -> outcome bool * W;
  session_initialize : W -> outcome unit * W;
  session_list_tools : W -> outcome (list Tool) * W;
  load_mcp_tools : W -> outcome (list Tool) * W;
  llm_plan : string -> string -> scratchpad -> W -> outcome agent_step * W;
  tool_invoke : string -> string -> W -> outcome string * W
}.

Record state : Type := {
  world : W;
  trace : list event;
  self : MCPClient
}.

(** Computations: [None] stands for a loop that has not come to an end
    within its fuel. *)
Definition M (A : Type) : Type := state -> option (outcome A * state).

Definition ret {A} (a : A) : M A := fun s => Some (Return a, s).

Definition raise {A} (e : exn) : M A := fun s => Some (Raise e, s).

Definition bind {A B} (m : M A) (k : A -> M B) : M B :=
  fun s =>
    match m s with
    | Some (Return a, s') => k a s'
    | Some (Raise e, s') => Some (Raise e, s')
    | None => None
    end.

(** An oracle call on the world. *)
Definition call {A} (f : W -> outcome A * W) : M A :=
  fun s =>
    let (r, w) := f (world s) in
    Some (r, {| world := w; trace := trace s; self := self s |}).

Definition emit (ev : event) : M unit :=
  fun s =>
    Some (Return tt,
          {| world := world s; trace := trace s ++ [ev]; self := self s |}).

Definition get_self : M MCPClient := fun s => Some (Return (self s), s).

Definition set_self (c : MCPClient) : M unit :=
  fun s =>
    Some (Return tt, {| world := world s; trace := trace s; self := c |}).

(** [try: body except ...: handler]; the handler answers [None] for an
    exception no [except] clause matches. *)
Definition try_except {A} (body : M A) (handler : exn -> option (M A))
  : M A :=
  fun s =>
    match body s with
    | Some (Return a, s') => Some (Return a, s')
    | Some (Raise e, s') =>
        match handler e with
        | Some h => h s'
        | None => Some (Raise e, s')
        end
    | None => None
    end.

(** [try: body finally: final]; an exception of [final] replaces the
    outcome of [body]. *)
Definition try_finally {A} (body : M A) (final : M unit) : M A :=
  fun s =>
    match body s with
    | Some (r, s') =>
        match final s' with
        | Some (Return _, s'') => Some (r, s'')
        | Some (Raise e, s'') => Some (Raise e, s'')
        | None => None
        end
    | None => None
    end.

(** [print] with its positional arguments *)
Definition print (args : list pyval) : M unit := emit (EvPrint args).

End World.

Arguments ret {W A} a.
Arguments raise {W A} e.
Arguments bind {W A B} m k.
Arguments call {W A} f.
Arguments emit {W} ev.
Arguments get_self {W}.
Arguments set_self {W} c.
Arguments try_except {W A} body handler.
Arguments try_finally {W A} body final.
Arguments print {W} args.
Arguments world {W} s.
Arguments trace {W} s.
Arguments self {W} s.
Arguments Build_state {W} world trace self.

Notation "x <- m ;; k" := (bind m (fun x => k))
  (at level 61, m at next level, right associativity).
Notation "m ;;; k" := (bind m (fun _ => k))
  (at level 61, right associativity).

Arguments input_ {W} o.
Arguments boto3_client {W} o.
Arguments new_ChatBedrockConverse {W} o.
Arguments invoke_model {W} o.
Arguments stdio_client {W} o.
Arguments ClientSession_enter {W} o.
Arguments aexit {W} o.
Arguments session_initialize {W} o.
Arguments session_list_tools {W} o.
Arguments load_mcp_tools {W} o.
Arguments llm_plan {W} o.
Arguments tool_invoke {W} o.

(** ** utils/helpers.py *)

Module Helpers.

Definition titan_models_inf_param : dict string :=
  [ ("temperature", "(float) Temperature");
    ("topP", "(float) Top P");
    ("maxTokenCount", "(int) Response Length");
    ("stopSequences", "([string]) Stop Sequences") ].

Definition claude_models_inf_param : dict string :=
  [ ("temperature", "(float) Temperature");
    ("topP", "(float) Top P");
    ("topK", "(float) Top K");
    ("max_tokens_to_sample", "(int) Maximum length");
    ("stop_sequences", "([string]) Stop sequences") ].

Definition jurassic_models_inf_param : dict string :=
  [ ("temperature", "(float) Temperature");
    ("topP", "(float) Top P");
    ("maxTokens", "(int) Maximum completion length");
    ("stopSequences", "([string]) Stop sequences");
    ("presencePenalty", "(float) Presence penalty");
    ("countPenalty", "(int) Count penalty");
    ("frequencyPenalty", "(int) Frequency penalty");
    ("applyToWhitespaces", "(bool) Whitespaces penalty");
    ("applyToPunctuation", "(bool) Punctuations penalty");
    ("applyToNumbers", "(bool) Numbers penalty");
    ("applyToStopwords", "(bool) Stop words penalty");
    ("applyToEmojis", "(bool) Emojis penalty") ].

Definition command_models_inf_param : dict string :=
  [ ("temperature", "(float) Temperature");
    ("p", "(float) Top P");
    ("k", "(float) Top K");
    ("return_likelihoods",
     "(string) Return likelihoods - GENERATION, ALL, NONE ");
    ("stream", "(bool) Stream");
    ("max_tokens", "(int) Maximum length");
    ("stop_sequences", "(str) Stop sequences");
    ("num_generations", "(int) Number of generations") ].

Definition stability_models_inf_param : dict string :=
  [ ("cfg_scale", "(float) Prompt Strength");
    ("steps", "(int) Seed") ].

Definition mixtral_models_inf_param : dict string :=
  [ ("max_tokens", "(int) Maximum completion length");
    ("stop", "(str) Stop sequences");
    ("temperature", "(float) Temperature");
    ("top_p", "(float) Top P");
    ("top_k", "(float) Top K") ].

(** The model families the two validators dispatch on. *)
Inductive family : Type :=
| Titan | Jurassic | Claude | Command | Stability | Mixtral.

Definition inf_param (f : family) : dict string :=
  match f with
  | Titan => titan_models_inf_param
  | Jurassic => jurassic_models_inf_param
  | Claude => claude_models_inf_param
  | Command => command_models_inf_param
  | Stability => stability_models_inf_param
  | Mixtral => mixtral_models_inf_param
  end.

(** The [if]/[elif] chain of [validate_inference_parameters]. *)
Definition inference_family (model_id : string) : option family :=
  if PyStr.contains "titan" model_id then Some Titan
  else if PyStr.contains "ai21" model_id then Some Jurassic
  else if PyStr.contains "claude" model_id then Some Claude
  else if PyStr.contains "command" model_id then Some Command
  else if PyStr.contains "stability" model_id then Some Stability
  else if PyStr.contains "mixtral" model_id then Some Mixtral
  else None.

(** The message of the final [else], with the continuation lines'
    leading blanks as the string literal keeps them. *)
Definition unsupported_msg (indent : string) : string :=
  "Check the model id. " ++ indent
  ++ "Currently we only support the following family of models:" ++ indent
  ++ "Amazon - Titan, AI21 Labs - Jurassic, Anthropic - Claude, " ++ indent
  ++ "Cohere - Command and Stability AI - Stable Diffusion".

Definition invalid_parameter_msg (key model_id : string) : string :=
  "'" ++ key ++ "' is not a valid inference paramater for model: "
  ++ model_id.

(** The [for key in inference_parameters] loop. *)
Fixpoint check_keys (selection : dict string) (model_id : string)
  (ks : list string) : outcome bool :=
  match ks with
  | [] => Return true
  | key :: ks' =>
      if negb (dict_mem key selection)
      then Raise (ValueError (invalid_parameter_msg key model_id))
      else check_keys selection model_id ks'
  end.

Definition validate_inference_parameters {V} (model_id : string)
  (inference_parameters : dict V) : outcome bool :=
  match inference_family model_id with
  | Some f => check_keys (inf_param f) model_id (keys inference_parameters)
  | None => Raise (ValueError (unsupported_msg "        "))
  end.

(** The synthetic request of each branch of [validate_model_access]. *)
Definition titan_request : json :=
  JObj [ ("inputText", JStr "How are you?");
         ("textGenerationConfig",
          JObj [ ("maxTokenCount", JInt 64);
                 ("temperature", JFloat (1 # 2)) ]) ].

Definition mixtral_request : json :=
  JObj [ ("prompt", JStr "<s>[INST] How are you? [/INST]");
         ("max_tokens", JInt 64);
         ("temperature", JFloat (1 # 2)) ].

Definition claude_request : json :=
  JObj [ ("anthropic_version", JStr "bedrock-2023-05-31");
         ("max_tokens", JInt 64);
         ("temperature", JFloat (1 # 2));
         ("system", JStr "You are a helpful assistant.");
         ("messages",
          JList [ JObj [ ("role", JStr "user");
                         ("content", JStr "How are you?") ] ]) ].

Definition command_request : json :=
  JObj [ ("prompt", JStr "How are you?");
         ("max_tokens", JInt 64);
         ("temperature", JFloat (1 # 2)) ].

Definition stability_request : json :=
  JObj [ ("text_prompts",
          JList [ JObj [ ("text", JStr "How are you?");
                         ("cfg_scale", JInt 10);
                         ("steps", JInt 1) ] ]) ].

(** The [if]/[elif] chain of [validate_model_access]; [None] is its
    final [else]. *)
Definition access_request (model_id : string) : option json :=
  if PyStr.contains "titan" model_id then Some titan_request
  else if PyStr.contains "mixtral" model_id then Some mixtral_request
  else if PyStr.contains "claude" model_id then Some claude_request
  else if PyStr.contains "command" model_id then Some command_request
  else if PyStr.contains "stability" model_id then Some stability_request
  else None.

Section WithWorld.

Context {W : Type} (o : oracles W).

(** [bedrock_runtime.invoke_model(modelId=..., body=...)]; the event
    keeps the request and how the provider answered it. *)
Definition do_invoke_model (model_id : string) (body : json) : M W unit :=
  fun s =>
    let (r, w) := invoke_model o model_id body (world s) in
    let failure := match r with Return _ => None | Raise e => Some e end in
    Some (r, {| world := w;
                trace := trace s ++ [EvInvokeModel model_id body failure];
                self := self s |}).

Definition validate_model_access (model_id : string) : M W bool :=
  try_except
    (request <-
       match access_request model_id with
       | Some request => ret request
       | None => raise (ValueError (unsupported_msg "            "))
       end ;;
     do_invoke_model model_id request ;;;
     ret true)
    (fun error =>
       match error with
       | ClientError code _ =>
           Some (if String.eqb code "AccessDeniedException"
                 then ret false
                 else raise error)
       | _ => None
       end).

(** The list comprehension: identifiers in order, kept when the check
    answers [False]. *)
Fixpoint inaccessible (model_ids : list string) : M W (list string) :=
  match model_ids with
  | [] => ret []
  | model_id :: rest =>
      ok <- validate_model_access model_id ;;
      bad <- inaccessible rest ;;
      ret (if negb ok then model_id :: bad else bad)
  end.

Definition validate_models_access (model_ids : list string)
  : M W (list string) :=
  call (boto3_client o "bedrock-runtime") ;;;
  inaccessible model_ids.

End WithWorld.

End Helpers.

(** ** mcp_client.py *)

Module Client.

Import PyStr.

Definition claude_model_id : string :=
  "anthropic.claude-3-sonnet-20240229-v1:0".

(** [PREFIX.format(tool_names=tool_strings)] *)
Definition PREFIX_format (tool_strings : string) : string :=
  nl ++ "Answer the following questions as best you can. "
  ++ "You have access to the following tools:" ++ nl ++ nl
  ++ tool_strings ++ nl.

Record AgentExecutor : Type := {
  agent_tools : list Tool;
  verbose : bool;
  max_iterations : nat
}.

(** Modelled from the spec: the think/act/observe loop is the agent
    library's executor, which the repository only calls; section 4.4 gives its
    state machine and asks for a documented iteration cap.  The cap is
    the executor's default, 15, which [process_query] leaves as it is. *)
Definition default_max_iterations : nat := 15.

Definition new_AgentExecutor (tools : list Tool) (verbose : bool)
  : AgentExecutor :=
  {| agent_tools := tools;
     verbose := verbose;
     max_iterations := default_max_iterations |}.

Definition has_tool (tools : list Tool) (name : string) : bool :=
  existsb (fun t => String.eqb (tool_name t) name) tools.

Inductive flow : Type := Break | Continue.

(** Events that leave the exit stack alone. *)
Definition quiet (ev : event) : bool :=
  match ev with
  | EvAcquire _ | EvRelease _ | EvCleanup => false
  | _ => true
  end.

(** A computation that leaves the client object as it is and adds only
    quiet events. *)
Definition preserves {W A : Type} (m : M W A) : Prop :=
  forall s r s',
    m s = Some (r, s') ->
    self s' = self s
    /\ exists new, trace s' = (trace s ++ new)%list
                   /\ forallb quiet new = true.

(** The contexts [connect_to_server] acquires, in order, as far as it
    got. *)
Definition acquisition_order (acq : list context) : Prop :=
  exists params,
    acq = []
    \/ acq = [StdioTransport params]
    \/ acq = [StdioTransport params; SessionContext].

(** The attributes [__init__] sets: no session, an empty exit stack,
    the bound model. *)
Definition fresh_client : MCPClient :=
  {| session := None;
     exit_stack := [];
     llm := Some {| model := claude_model_id;
                    temperature := 0;
                    max_tokens := None |} |}.

Section WithWorld.

Context {W : Type} (o : oracles W).

(** [ChatBedrockConverse(model=..., temperature=0, max_tokens=None)] is
    a call into the model library: it may raise, and then [__init__]
    raises. *)
Definition MCPClient_init : M W unit :=
  Helpers.validate_models_access o [claude_model_id] ;;;
  set_self {| session := None; exit_stack := []; llm := None |} ;;;
  let kwargs :=
    {| model := claude_model_id; temperature := 0; max_tokens := None |} in
  call (new_ChatBedrockConverse o kwargs) ;;;
  set_self {| session := None; exit_stack := []; llm := Some kwargs |}.

(** [exit_stack.enter_async_context(cm)]: enter [cm]; when that
    succeeds, push its exit callback. *)
Definition enter_async_context (c : context)
  (aenter : W -> outcome unit * W) : M W unit :=
  call aenter ;;;
  me <- get_self ;;
  set_self {| session := session me;
              exit_stack := c :: exit_stack me;
              llm := llm me |} ;;;
  emit (EvAcquire c).

Definition connect_to_server (server_script_path : string) : M W unit :=
  let is_python := endswith server_script_path ".py" in
  let is_js := endswith server_script_path ".js" in
  (if negb (is_python || is_js)
   then raise (ValueError "Server script must be a .py or .js file")
   else ret tt) ;;;
  let command := if is_python then "python" else "node" in
  let server_params :=
    {| command := command; args := [server_script_path]; env := None |} in
  emit (EvStdioClient server_params) ;;;
  enter_async_context (StdioTransport server_params)
    (stdio_client o server_params) ;;;
  enter_async_context SessionContext (ClientSession_enter o) ;;;
  me <- get_self ;;
  set_self {| session := Some tt;
              exit_stack := exit_stack me;
              llm := llm me |} ;;;
  call (session_initialize o) ;;;
  tools <- call (session_list_tools o) ;;
  print [ PyStr (nl ++ "Connected to server with tools:");
          PyStrList (map tool_name tools) ].

(** Modelled from the spec: one Acting step of section 4.4.  A tool
    missing from the registry and a failed invocation both become the
    Observation; any other failure is passed on. *)
Definition act (tools : list Tool) (name tool_input : string)
  : M W string :=
  if has_tool tools name then
    emit (EvAct name tool_input) ;;;
    try_except (call (tool_invoke o name tool_input))
      (fun e =>
         match e with
         | OtherException "ToolInvocationError" detail =>
             Some (ret ("ToolInvocationError: " ++ detail))
         | _ => None
         end)
  else ret ("UnknownToolError: " ++ name).

(** Modelled from the spec: the state machine of section 4.4, started in
    Thinking, with [remaining] iterations left before the cap. *)
Fixpoint agent_loop (remaining : nat) (tools : list Tool)
  (system_prompt query : string) (steps : scratchpad)
  : M W agent_output :=
  match remaining with
  | 0 => ret (OutStr "Agent stopped due to max iterations.")
  | S n =>
      emit EvThink ;;;
      step <- call (llm_plan o system_prompt query steps) ;;
      match step with
      | FinalAnswer output => ret output
      | Unparsable =>
          raise (OtherException "AgentParseError"
                   "Could not parse the model output")
      | ToolCall name tool_input =>
          observation <- act tools name tool_input ;;
          agent_loop n tools system_prompt query
            (steps ++ [(name, tool_input, observation)])%list
      end
  end.

Definition AgentExecutor_ainvoke (ex : AgentExecutor)
  (system_prompt query : string) : M W agent_output :=
  agent_loop (max_iterations ex) (agent_tools ex) system_prompt query [].

Definition process_query (query : string) : M W string :=
  emit (EvProcessQuery query) ;;;
  tools <- call (load_mcp_tools o) ;;
  let tool_strings :=
    join nl (map (fun t => tool_name t ++ ": " ++ tool_description t)
               tools) in
  let prompt := PREFIX_format tool_strings in
  tools <- call (load_mcp_tools o) ;;
  let agent_executor := new_AgentExecutor tools true in
  output <- AgentExecutor_ainvoke agent_executor prompt query ;;
  text <-
    match output with
    | OutBlocks (text :: _) => ret text
    | OutBlocks [] =>
        raise (OtherException "IndexError" "list index out of range")
    | OutStr EmptyString =>
        raise (OtherException "IndexError" "string index out of range")
    | OutStr _ =>
        raise (OtherException "TypeError"
                 "string indices must be integers")
    end ;;
  ret (join nl (split (ascii_of_nat 10) text)).

(** The body of the [try] in [chat_loop]. *)
Definition query_cycle : M W flow :=
  line <- call (input_ o (nl ++ "Query: ")) ;;
  let query := strip line in
  if String.eqb (lower query) "quit" then ret Break
  else
    response <- process_query query ;;
    print [PyStr (nl ++ response)] ;;;
    ret Continue.

(** One turn of [while True]: the [try] with its
    [except Exception as e]. *)
Definition loop_turn : M W flow :=
  try_except query_cycle
    (fun e =>
       if is_Exception e
       then Some (print [PyStr (nl ++ "Error: " ++ str_exn e)] ;;;
                  ret Continue)
       else None).

Fixpoint while_true (fuel : nat) : M W unit :=
  match fuel with
  | 0 => fun _ => None
  | S n =>
      next <- loop_turn ;;
      match next with
      | Break => ret tt
      | Continue => while_true n
      end
  end.

Definition chat_loop (fuel : nat) : M W unit :=
  print [PyStr (nl ++ "MCP Client Started!")] ;;;
  print [PyStr "Type your queries or 'quit' to exit."] ;;;
  while_true fuel.

(** [AsyncExitStack.aclose]: pop and run the exit callbacks, last
    entered first; a callback that raises leaves the later ones to
    run, and a callback that answers true swallows the pending
    exception. *)
Fixpoint unwind (stack : list context) (pending : option exn)
  : M W (option exn) :=
  match stack with
  | [] => ret pending
  | c :: rest =>
      me <- get_self ;;
      set_self {| session := session me;
                  exit_stack := rest;
                  llm := llm me |} ;;;
      emit (EvRelease c) ;;;
      pending' <-
        try_except
          (suppress <- call (aexit o c pending) ;;
           ret (if suppress : bool then None else pending))
          (fun e => Some (ret (Some e))) ;;
      unwind rest pending'
  end.

Definition aclose : M W unit :=
  me <- get_self ;;
  pending <- unwind (exit_stack me) None ;;
  match pending with
  | Some e => raise e
  | None => ret tt
  end.

Definition cleanup : M W unit :=
  emit EvCleanup ;;;
  aclose.

Definition main (fuel : nat) (argv : list string) : M W unit :=
  (if (length argv <? 2)%nat
   then
     print [PyStr "Usage: python client.py <path_to_server_script>"] ;;;
     raise (SystemExit 1)
   else ret tt) ;;;
  MCPClient_init ;;;
  try_finally
    (connect_to_server (nth 1 argv EmptyString) ;;;
     chat_loop fuel)
    cleanup.

End WithWorld.

End Client.

(** ** Scripted worlds

    A concrete world for running the program: standard input is a list of
    pending results of [input]; past its end [input] raises [EOFError].
    The other oracles follow a fixed configuration. *)

Module Script.

Definition W : Type := list (outcome string).

Record config : Type := {
  provider : string -> outcome unit;
  handshake : outcome unit;
  catalog : list Tool;
  planner : scratchpad -> agent_step
}.

Definition oracles_of (c : config) : oracles W :=
  {| input_ := fun _ w =>
       match w with
       | [] => (Raise EOFError, [])
       | r :: w' => (r, w')
       end;
     boto3_client := fun _ w => (Return tt, w);
   new_ChatBedrockConverse := fun _ w => (Return tt, w);
     invoke_model := fun model_id _ w => (provider c model_id, w);
     stdio_client := fun _ w => (Return tt, w);
     ClientSession_enter := fun w => (Return tt, w);
     aexit := fun _ _ w => (Return false, w);
     session_initialize := fun w => (handshake c, w);
     session_list_tools := fun w => (Return (catalog c), w);
     load_mcp_tools := fun w => (Return (catalog c), w);
     llm_plan := fun _ _ steps w => (Return (planner c steps), w);
     tool_invoke := fun _ tool_input w => (Return tool_input, w) |}.

Definition echo : Tool :=
  {| tool_name := "echo"; tool_description := "returns input" |}.

(** Every model is accessible, the handshake succeeds, the model answers
    at once. *)
Definition friendly : config :=
  {| provider := fun _ => Return tt;
     handshake := Return tt;
     catalog := [echo];
     planner := fun _ => FinalAnswer (OutBlocks ["done"]) |}.

(** The provider denies access to every model. *)
Definition denying : config :=
  {| provider := fun _ => Raise (ClientError "AccessDeniedException" "denied");
     handshake := Return tt;
     catalog := [echo];
     planner := fun _ => FinalAnswer (OutBlocks ["done"]) |}.

(** The handshake fails. *)
Definition mute_server : config :=
  {| provider := fun _ => Return tt;
     handshake := Raise (OtherException "HandshakeError" "no reply");
     catalog := [echo];
     planner := fun _ => FinalAnswer (OutBlocks ["done"]) |}.

(** The model proposes a tool call at every Thinking step. *)
Definition restless : config :=
  {| provider := fun _ => Return tt;
     handshake := Return tt;
     catalog := [echo];
     planner := fun _ => ToolCall "echo" "hi" |}.

Definition blank : MCPClient :=
  {| session := None; exit_stack := []; llm := None |}.

Definition start (stdin : W) : state W :=
  {| world := stdin; trace := []; self := blank |}.

Definition python_params : StdioServerParameters :=
  {| command := "python"; args := ["server.py"]; env := None |}.

(** The state of a friendly world once the client is built. *)
Definition built (stdin : W) : state W :=
  {| world := stdin;
     trace := [ EvInvokeModel Client.claude_model_id Helpers.claude_request
                  None ];
     self := Client.fresh_client |}.

(** The state of a friendly world once "server.py" is connected. *)
Definition connected (stdin : W) : state W :=
  {| world := stdin;
     trace := [ EvInvokeModel Client.claude_model_id Helpers.claude_request
                  None;
                EvStdioClient python_params;
                EvAcquire (StdioTransport python_params);
                EvAcquire SessionContext;
                EvPrint [ PyStr (PyStr.nl
                                 ++ "Connected to server with tools:");
                          PyStrList ["echo"] ] ];
     self := {| session := Some tt;
                exit_stack := [SessionContext; StdioTransport python_params];
                llm := llm Client.fresh_client |} |}.

End Script.

(** ** Reading a trace *)

Module Trace.

(** The inference requests of a trace, each with how it failed. *)
Definition invocations (tr : list event) : list (string * option exn) :=
  flat_map (fun ev =>
              match ev with
              | EvInvokeModel model_id _ failure => [(model_id, failure)]
              | _ => []
              end) tr.

(** The provider refused access. *)
Definition access_denied (failure : option exn) : bool :=
  match failure with
  | Some (ClientError code _) => String.eqb code "AccessDeniedException"
  | _ => false
  end.

Definition acquired (tr : list event) : list context :=
  flat_map (fun ev => match ev with EvAcquire c => [c] | _ => [] end) tr.

Definition released (tr : list event) : list context :=
  flat_map (fun ev => match ev with EvRelease c => [c] | _ => [] end) tr.

Definition cleanups (tr : list event) : nat :=
  length (filter (fun ev => match ev with EvCleanup => true | _ => false end)
            tr).

Definition queries (tr : list event) : list string :=
  flat_map (fun ev => match ev with EvProcessQuery q => [q] | _ => [] end)
    tr.

Definition spawns (tr : list event) : list StdioServerParameters :=
  flat_map (fun ev => match ev with EvStdioClient p => [p] | _ => [] end)
    tr.

Definition thoughts (tr : list event) : nat :=
  length (filter (fun ev => match ev with EvThink => true | _ => false end)
            tr).

End Trace.

(** ** The quit sentinel, in the words of the interface description

    A line is a quit line when it is the token quit, in any mix of upper
    and lower case, with nothing but whitespace around it. *)

Module Sentinel.

Fixpoint all_space (s : string) : bool :=
  match s with
  | EmptyString => true
  | String c s' => PyStr.isspace c && all_space s'
  end.

Definition either (lo up c : ascii) : Prop := c = lo \/ c = up.

Definition quit_token (s : string) : Prop :=
  exists q u i t,
    s = String q (String u (String i (String t EmptyString)))
    /\ either "q" "Q" q /\ either "u" "U" u
    /\ either "i" "I" i /\ either "t" "T" t.

Definition is_quit_line (line : string) : Prop :=
  exists before token after,
    line = before ++ token ++ after
    /\ all_space before = true
    /\ all_space after = true
    /\ quit_token token.

End Sentinel.

(** ** What the validators are to do, stated apart from their code *)

Module AccessSpec.

(** The five families the access check has a request for, in the order
    it tries them: the first whose name occurs in the identifier
    counts. *)
Definition families : list (string * json) :=
  [ ("titan", Helpers.titan_request);
    ("mixtral", Helpers.mixtral_request);
    ("claude", Helpers.claude_request);
    ("command", Helpers.command_request);
    ("stability", Helpers.stability_request) ].

Definition request_for (model_id : string) : option json :=
  option_map snd
    (find (fun f => PyStr.contains (fst f) model_id) families).

(** An identifier in which none of the six family names occurs. *)
Definition unknown (model_id : string) : bool :=
  negb (existsb (fun name => PyStr.contains name model_id)
          ["titan"; "ai21"; "mixtral"; "claude"; "command"; "stability"]).

(** An identifier of one of the five families, or of none at all. *)
Definition in_scope (model_id : string) : bool :=
  match request_for model_id with
  | Some _ => true
  | None => unknown model_id
  end.

(** The provider refused access. *)
Definition refused (r : outcome unit) : bool :=
  match r with
  | Raise (ClientError code _) => String.eqb code "AccessDeniedException"
  | _ => false
  end.

(** The provider answered, or refused access. *)
Definition answered (r : outcome unit) : bool :=
  match r with
  | Return _ => true
  | Raise _ => refused r
  end.

(** [asked o ids w rs w']: starting in the world [w], one request was
    made through [invoke_model] for each identifier of [ids], in order,
    each in the world the one before left; [rs] are the provider's
    answers and [w'] is the world after the last one. *)
Inductive asked {W : Type} (o : oracles W)
  : list string -> W -> list (outcome unit) -> W -> Prop :=
| asked_nil : forall w, asked o [] w [] w
| asked_cons : forall model_id request rest w r w1 rs w2,
    request_for model_id = Some request ->
    invoke_model o model_id request w = (r, w1) ->
    asked o rest w1 rs w2 ->
    asked o (model_id :: rest) w (r :: rs) w2.

(** The identifiers whose request was refused. *)
Definition refused_of (model_ids : list string) (rs : list (outcome unit))
  : list string :=
  map fst (filter (fun p => refused (snd p)) (combine model_ids rs)).

Definition unsupported_text : string :=
  "Check the model id.             Currently we only support the following family of models:            Amazon - Titan, AI21 Labs - Jurassic, Anthropic - Claude,             Cohere - Command and Stability AI - Stable Diffusion".

(** What a run over [model_ids] from the world [w0] has to amount to. *)
Definition settled {W : Type} (o : oracles W) (model_ids : list string)
  (w0 : W) (r : outcome (list string)) (w' : W) : Prop :=
  match r with
  | Return bad =>
      exists rs,
        asked o model_ids w0 rs w'
        /\ forallb answered rs = true
        /\ bad = refused_of model_ids rs
  | Raise e =>
      exists done model_id rest rs w1,
        model_ids = (done ++ model_id :: rest)%list
        /\ asked o done w0 rs w1
        /\ forallb answered rs = true
        /\ ((unknown model_id = true
             /\ e = ValueError unsupported_text
             /\ w' = w1)
            \/ (exists request,
                  request_for model_id = Some request
                  /\ invoke_model o model_id request w1 = (Raise e, w')
                  /\ refused (Raise e) = false))
  end.

(** The answer of one check, from the provider's. *)
Definition verdict (r : outcome unit) : outcome bool :=
  match r with
  | Return _ => Return true
  | Raise e => if refused r then Return false else Raise e
  end.

End AccessSpec.

Module ParamSpec.

Definition unsupported_text : string :=
  "Check the model id.         Currently we only support the following family of models:        Amazon - Titan, AI21 Labs - Jurassic, Anthropic - Claude,         Cohere - Command and Stability AI - Stable Diffusion".

Definition invalid_text (key model_id : string) : string :=
  "'" ++ key ++ "' is not a valid inference paramater for model: "
  ++ model_id.

(** The validator takes [model_id] with exactly the keys of [allowed]:
    it returns true when every key of the parameters is allowed, and
    otherwise raises at the first key that is not, naming it and the
    model. *)
Definition accepts {V : Type} (allowed : list string) (model_id : string)
  (inference_parameters : dict V) : Prop :=
  (Helpers.validate_inference_parameters model_id inference_parameters
   = Return true
   <-> (forall key, In key (keys inference_parameters) -> In key allowed))
  /\ ((exists key, In key (keys inference_parameters) /\ ~ In key allowed) ->
      exists before key after,
        keys inference_parameters = (before ++ key :: after)%list
        /\ (forall k, In k before -> In k allowed)
        /\ ~ In key allowed
        /\ Helpers.validate_inference_parameters model_id
             inference_parameters
           = Raise (ValueError (invalid_text key model_id))
        /\ PyStr.contains key (invalid_text key model_id) = true
        /\ PyStr.contains model_id (invalid_text key model_id) = true).

End ParamSpec.

(** ** What connecting and shutting down are to do to the world *)

Module ConnectSpec.

Section WithWorld.

Context {W : Type} (o : oracles W).

(** The steps after the stdio client has come back in the world [w1]:
    the transport is on the exit stack; then the session context is
    entered, the handshake made and the tools listed, each in the world
    the step before left, and the first failure ends the run. *)
Definition session_steps (params : StdioServerParameters) (w1 : W)
  (s : state W) : outcome unit * state W :=
  let me1 := {| session := session (self s);
                exit_stack := StdioTransport params :: exit_stack (self s);
                llm := llm (self s) |} in
  let me2 := {| session := Some tt;
                exit_stack := SessionContext :: StdioTransport params
                              :: exit_stack (self s);
                llm := llm (self s) |} in
  let tr1 := (trace s ++ [EvStdioClient params;
                          EvAcquire (StdioTransport params)])%list in
  let tr2 := (tr1 ++ [EvAcquire SessionContext])%list in
  match ClientSession_enter o w1 with
  | (Raise e, w2) => (Raise e, {| world := w2; trace := tr1; self := me1 |})
  | (Return _, w2) =>
      match session_initialize o w2 with
      | (Raise e, w3) =>
          (Raise e, {| world := w3; trace := tr2; self := me2 |})
      | (Return _, w3) =>
          match session_list_tools o w3 with
          | (Raise e, w4) =>
              (Raise e, {| world := w4; trace := tr2; self := me2 |})
          | (Return tools, w4) =>
              (Return tt,
               {| world := w4;
                  trace := (tr2
                            ++ [EvPrint
                                  [ PyStr (PyStr.nl
                                           ++ "Connected to server with tools:");
                                    PyStrList (map tool_name tools) ]])%list;
                  self := me2 |})
          end
      end
  end.

(** Launching [command] on [path]: the stdio client is asked, in the
    world as it is, for a process running [command] with [path] as its
    only argument and no environment; when it fails nothing is on the
    exit stack, otherwise the steps of the session follow. *)
Definition launch (command path : string) (s : state W)
  : option (outcome unit * state W) :=
  let params := {| command := command; args := [path]; env := None |} in
  match stdio_client o params (world s) with
  | (Raise e, w1) =>
      Some (Raise e,
            {| world := w1;
               trace := (trace s ++ [EvStdioClient params])%list;
               self := self s |})
  | (Return _, w1) => Some (session_steps params w1 s)
  end.

End WithWorld.

End ConnectSpec.

Module ReleaseSpec.

(** Releasing a stack of contexts: the exit callback of each context is
    run once, the top of the stack first, each in the world the one
    before left.  The answer is the exception left pending and the world
    after the last callback. *)
Fixpoint release_all {W : Type} (o : oracles W) (stack : list context)
  (pending : option exn) (w : W) : option exn * W :=
  match stack with
  | [] => (pending, w)
  | c :: rest =>
      let (r, w') := aexit o c pending w in
      release_all o rest
        match r with
        | Return true => None
        | Return false => pending
        | Raise e => Some e
        end w'
  end.

Inductive resource : Type := ChildProcess | DuplexChannel | SessionHandle.

(** Modelled from the spec: what the stdio transport context holds is
    inside the transport library; the resource stack of the data model
    lists the child process, then the duplex channel, then the session,
    acquired in this order and released in the reverse one. *)
Definition holds (c : context) : list resource :=
  match c with
  | StdioTransport _ => [ChildProcess; DuplexChannel]
  | SessionContext => [SessionHandle]
  end.

(** Modelled from the spec: a context gives up what it holds in
    reverse. *)
Definition gives_up (c : context) : list resource := rev (holds c).

(** The resources a trace acquired and released, in order. *)
Definition acquired_resources (tr : list event) : list resource :=
  flat_map holds (Trace.acquired tr).

Definition released_resources (tr : list event) : list resource :=
  flat_map gives_up (Trace.released tr).

End ReleaseSpec.

(** ** A world that keeps a ledger of the calls made to it *)

Module Ledger.

Inductive entry : Type :=
| AskedClient (service : string)
| AskedModel (model_id : string) (body : json)
| BuiltModel (kwargs : ChatBedrockConverse)
| Spawned (params : StdioServerParameters)
| EnteredSession
| Exited (c : context)
| Initialized
| ListedTools
| ReadLine.

Definition W : Type := list entry.

Record faults : Type := {
  refuse_access : bool;
  model_breaks : bool;
  handshake_breaks : bool
}.

(** Every oracle writes its call at the end of the ledger; standard input
    holds the line quit for ever. *)
Definition oracles_of (f : faults) : oracles W :=
  {| input_ := fun _ w => (Return "quit", w ++ [ReadLine])%list;
     boto3_client := fun service w =>
       (Return tt, w ++ [AskedClient service])%list;
     new_ChatBedrockConverse := fun kwargs w =>
       (if model_breaks f
        then Raise (OtherException "ValidationError" "no region")
        else Return tt,
        w ++ [BuiltModel kwargs])%list;
     invoke_model := fun model_id body w =>
       (if refuse_access f
        then Raise (ClientError "AccessDeniedException" "denied")
        else Return tt,
        w ++ [AskedModel model_id body])%list;
     stdio_client := fun params w => (Return tt, w ++ [Spawned params])%list;
     ClientSession_enter := fun w => (Return tt, w ++ [EnteredSession])%list;
     aexit := fun c _ w => (Return false, w ++ [Exited c])%list;
     session_initialize := fun w =>
       (if handshake_breaks f
        then Raise (OtherException "HandshakeError" "no reply")
        else Return tt,
        w ++ [Initialized])%list;
     session_list_tools := fun w =>
       (Return [Script.echo], w ++ [ListedTools])%list;
     load_mcp_tools := fun w => (Return [Script.echo], w);
     llm_plan := fun _ _ _ w => (Return (FinalAnswer (OutBlocks ["done"])), w);
     tool_invoke := fun _ tool_input w => (Return tool_input, w) |}.

Definition sound : faults :=
  {| refuse_access := false; model_breaks := false;
     handshake_breaks := false |}.

Definition refusing : faults :=
  {| refuse_access := true; model_breaks := false;
     handshake_breaks := false |}.

Definition broken_model : faults :=
  {| refuse_access := false; model_breaks := true;
     handshake_breaks := false |}.

Definition broken_handshake : faults :=
  {| refuse_access := false; model_breaks := false;
     handshake_breaks := true |}.

Definition start : state W :=
  {| world := []; trace := []; self := Script.blank |}.

Definition claude_model : ChatBedrockConverse :=
  {| model := "anthropic.claude-3-sonnet-20240229-v1:0";
     temperature := 0;
     max_tokens := None |}.

(** The sound world once the client is built. *)
Definition built : state W :=
  {| world := [ AskedClient "bedrock-runtime";
                AskedModel "anthropic.claude-3-sonnet-20240229-v1:0"
                  Helpers.claude_request;
                BuiltModel claude_model ];
     trace := [ EvInvokeModel "anthropic.claude-3-sonnet-20240229-v1:0"
                  Helpers.claude_request None ];
     self := {| session := None;
                exit_stack := [];
                llm := Some claude_model |} |}.

(** The sound world once "server.py" is connected. *)
Definition connected : state W :=
  {| world := (world built
               ++ [ Spawned Script.python_params; EnteredSession;
                    Initialized; ListedTools ])%list;
     trace := (trace built
               ++ [ EvStdioClient Script.python_params;
                    EvAcquire (StdioTransport Script.python_params);
                    EvAcquire SessionContext;
                    EvPrint [ PyStr (PyStr.nl
                                     ++ "Connected to server with tools:");
                              PyStrList ["echo"] ] ])%list;
     self := {| session := Some tt;
                exit_stack := [ SessionContext;
                                StdioTransport Script.python_params ];
                llm := Some claude_model |} |}.

End Ledger.

(** * Properties *)

(** Unfold the monad and split on the answers of the oracles. *)
Ltac unfold_monad :=
  unfold bind, call, emit, print, ret, raise, get_self, set_self,
    try_except, try_finally in *.

Ltac split_oracles :=
  repeat match goal with
         | |- context [let (_, _) := ?f in _] =>
             let r := fresh "r" in
             let w := fresh "w" in
             destruct f as [[r|r] w]; cbn [world trace self exit_stack]
         end.


(** ** Strings *)

Module PyStrFacts.

Import PyStr.

Lemma prefix_app (s t : string) : String.prefix s (s ++ t) = true.
Proof.
  induction s as [|c s IH]; simpl.
  - destruct t; reflexivity.
  - destruct (ascii_dec c c) as [_|N]; [exact IH | now elim N].
Qed.

Lemma contains_prefix (sub s : string) :
  String.prefix sub s = true -> contains sub s = true.
Proof.
  intros H. destruct s; simpl in *; rewrite H; reflexivity.
Qed.

Lemma contains_app_l (sub a s : string) :
  contains sub s = true -> contains sub (a ++ s) = true.
Proof.
  intros H. induction a as [|c a IH]; simpl; [exact H|].
  rewrite IH. apply orb_true_r.
Qed.

(** A string occurs in every string built around it. *)
Lemma contains_middle (sub a b : string) :
  contains sub (a ++ sub ++ b) = true.
Proof.
  apply contains_app_l, contains_prefix, prefix_app.
Qed.

Lemma contains_end (sub a : string) : contains sub (a ++ sub) = true.
Proof.
  apply contains_app_l, contains_prefix.
  induction sub as [|c sub IH]; simpl; [reflexivity|].
  destruct (ascii_dec c c) as [_|N]; [exact IH | now elim N].
Qed.

End PyStrFacts.

(** ** The inference parameter validator *)

Module HelpersFacts.

Import PyStr Helpers.

Lemma dict_mem_In {V} (key : string) (d : dict V) :
  dict_mem key d = true <-> In key (keys d).
Proof.
  unfold dict_mem. rewrite existsb_exists. split.
  - intros [k [Hin Heq]]. apply String.eqb_eq in Heq. now subst.
  - intros Hin. exists key. split; [exact Hin | apply String.eqb_refl].
Qed.

Lemma check_keys_ok (selection : dict string) (model_id : string)
  (ks : list string) :
  check_keys selection model_id ks = Return true <->
  (forall key, In key ks -> In key (keys selection)).
Proof.
  induction ks as [|k ks IH]; simpl.
  - split; [intros _ key [] | reflexivity].
  - destruct (dict_mem k selection) eqn:E; simpl.
    + rewrite IH. apply dict_mem_In in E. split.
      * intros H key [<-|Hin]; [exact E | now apply H].
      * intros H key Hin. apply H. now right.
    + split; [discriminate|].
      intros H. assert (In k (keys selection)) as Hk by (apply H; now left).
      apply dict_mem_In in Hk. congruence.
Qed.

(** When the loop fails it fails at the first key outside the
    selection. *)
Lemma check_keys_first_bad (selection : dict string) (model_id : string)
  (ks : list string) :
  (exists key, In key ks /\ ~ In key (keys selection)) ->
  exists before key after,
    ks = (before ++ key :: after)%list
    /\ (forall k, In k before -> In k (keys selection))
    /\ ~ In key (keys selection)
    /\ check_keys selection model_id ks
       = Raise (ValueError (invalid_parameter_msg key model_id)).
Proof.
  induction ks as [|k ks IH]; intros [key [Hin Hbad]]; [destruct Hin|].
  simpl. destruct (dict_mem k selection) eqn:E; simpl.
  - apply dict_mem_In in E.
    destruct Hin as [<-|Hin]; [contradiction|].
    destruct IH as (before & key' & after & -> & Hb & Hk & Hr);
      [now exists key|].
    exists (k :: before), key', after. repeat split; auto.
    intros k0 [<-|H0]; auto.
  - exists [], k, ks. repeat split; auto.
    + intros k0 [].
    + intros Hk. apply dict_mem_In in Hk. congruence.
Qed.

Lemma claude_id_family (model_id : string) :
  contains "claude" model_id = true ->
  inference_family model_id = Some Titan
  \/ inference_family model_id = Some Jurassic
  \/ inference_family model_id = Some Claude.
Proof.
  intros H. unfold inference_family.
  destruct (contains "titan" model_id); [now left|].
  destruct (contains "ai21" model_id); [now right; left|].
  rewrite H. now right; right.
Qed.

(** The validator takes an identifier of a family with the keys of the
    family's table. *)
Lemma accepts_family {V} (model_id : string) (params : dict V)
  (f : family) :
  inference_family model_id = Some f ->
  ParamSpec.accepts (keys (inf_param f)) model_id params.
Proof.
  intros Hf. unfold ParamSpec.accepts, validate_inference_parameters.
  rewrite Hf. split.
  - apply check_keys_ok.
  - intros Hbad.
    destruct (check_keys_first_bad (inf_param f) model_id (keys params) Hbad)
      as (before & key & after & Hsplit & Hb & Hk & Hr).
    exists before, key, after. repeat split; auto.
    + unfold ParamSpec.invalid_text.
      apply (PyStrFacts.contains_middle key "'").
    + unfold ParamSpec.invalid_text.
      apply PyStrFacts.contains_app_l, PyStrFacts.contains_app_l,
        PyStrFacts.contains_end.
Qed.

End HelpersFacts.

(** C6.  The inference parameter validator classifies the model id by
    the family names that occur in it, tried in the order titan, ai21,
    claude, command, stability, mixtral.  For the family found it succeeds
    exactly when every parameter key is one of the family's keys;
    otherwise it fails at the first key that is not, with a message that
    names this key and the model id.  When none of the six names occurs
    in the id it fails with the unsupported-model error.  For an id that
    contains "claude", the parameters temperature and bogus fail naming
    bogus, and temperature alone succeeds. *)
Theorem validate_inference_parameters_spec :
  forall (V : Type) (model_id : string) (inference_parameters : dict V),
    (PyStr.contains "titan" model_id = true ->
     ParamSpec.accepts
       ["temperature"; "topP"; "maxTokenCount"; "stopSequences"]
       model_id inference_parameters)
    /\ (PyStr.contains "titan" model_id = false ->
        PyStr.contains "ai21" model_id = true ->
        ParamSpec.accepts
          ["temperature"; "topP"; "maxTokens"; "stopSequences";
           "presencePenalty"; "countPenalty"; "frequencyPenalty";
           "applyToWhitespaces"; "applyToPunctuation"; "applyToNumbers";
           "applyToStopwords"; "applyToEmojis"]
          model_id inference_parameters)
    /\ (PyStr.contains "titan" model_id = false ->
        PyStr.contains "ai21" model_id = false ->
        PyStr.contains "claude" model_id = true ->
        ParamSpec.accepts
          ["temperature"; "topP"; "topK"; "max_tokens_to_sample";
           "stop_sequences"]
          model_id inference_parameters)
    /\ (PyStr.contains "titan" model_id = false ->
        PyStr.contains "ai21" model_id = false ->
        PyStr.contains "claude" model_id = false ->
        PyStr.contains "command" model_id = true ->
        ParamSpec.accepts
          ["temperature"; "p"; "k"; "return_likelihoods"; "stream";
           "max_tokens"; "stop_sequences"; "num_generations"]
          model_id inference_parameters)
    /\ (PyStr.contains "titan" model_id = false ->
        PyStr.contains "ai21" model_id = false ->
        PyStr.contains "claude" model_id = false ->
        PyStr.contains "command" model_id = false ->
        PyStr.contains "stability" model_id = true ->
        ParamSpec.accepts ["cfg_scale"; "steps"]
          model_id inference_parameters)
    /\ (PyStr.contains "titan" model_id = false ->
        PyStr.contains "ai21" model_id = false ->
        PyStr.contains "claude" model_id = false ->
        PyStr.contains "command" model_id = false ->
        PyStr.contains "stability" model_id = false ->
        PyStr.contains "mixtral" model_id = true ->
        ParamSpec.accepts
          ["max_tokens"; "stop"; "temperature"; "top_p"; "top_k"]
          model_id inference_parameters)
    /\ (PyStr.contains "titan" model_id = false ->
        PyStr.contains "ai21" model_id = false ->
        PyStr.contains "claude" model_id = false ->
        PyStr.contains "command" model_id = false ->
        PyStr.contains "stability" model_id = false ->
        PyStr.contains "mixtral" model_id = false ->
        Helpers.validate_inference_parameters model_id inference_parameters
        = Raise (ValueError ParamSpec.unsupported_text))
    /\ (PyStr.contains "claude" model_id = true ->
        Helpers.validate_inference_parameters model_id
          [("temperature", JFloat (1 # 2)); ("bogus", JInt 1)]
        = Raise (ValueError (ParamSpec.invalid_text "bogus" model_id))
        /\ Helpers.validate_inference_parameters model_id
             [("temperature", JFloat (1 # 2))]
           = Return true).
Proof.
  intros V model_id params.
  repeat match goal with |- _ /\ _ => split end.
  - intros Ht.
    apply (HelpersFacts.accepts_family model_id params Helpers.Titan).
    unfold Helpers.inference_family. now rewrite Ht.
  - intros Ht Ha.
    apply (HelpersFacts.accepts_family model_id params Helpers.Jurassic).
    unfold Helpers.inference_family. now rewrite Ht, Ha.
  - intros Ht Ha Hc.
    apply (HelpersFacts.accepts_family model_id params Helpers.Claude).
    unfold Helpers.inference_family. now rewrite Ht, Ha, Hc.
  - intros Ht Ha Hc Hco.
    apply (HelpersFacts.accepts_family model_id params Helpers.Command).
    unfold Helpers.inference_family. now rewrite Ht, Ha, Hc, Hco.
  - intros Ht Ha Hc Hco Hs.
    apply (HelpersFacts.accepts_family model_id params Helpers.Stability).
    unfold Helpers.inference_family. now rewrite Ht, Ha, Hc, Hco, Hs.
  - intros Ht Ha Hc Hco Hs Hm.
    apply (HelpersFacts.accepts_family model_id params Helpers.Mixtral).
    unfold Helpers.inference_family. now rewrite Ht, Ha, Hc, Hco, Hs, Hm.
  - intros Ht Ha Hc Hco Hs Hm.
    unfold Helpers.validate_inference_parameters, Helpers.inference_family.
    now rewrite Ht, Ha, Hc, Hco, Hs, Hm.
  - intros Hclaude. unfold Helpers.validate_inference_parameters.
    destruct (HelpersFacts.claude_id_family model_id Hclaude)
      as [-> | [-> | ->]]; split; reflexivity.
Qed.

Lemma validate_inference_parameters_spec_witness :
  ParamSpec.accepts
    ["temperature"; "topP"; "topK"; "max_tokens_to_sample"; "stop_sequences"]
    "anthropic.claude-3-sonnet-20240229-v1:0"
    [("temperature", JFloat (1 # 2)); ("bogus", JInt 1)].
Proof.
  apply (proj1 (proj2 (proj2 (validate_inference_parameters_spec json
                                "anthropic.claude-3-sonnet-20240229-v1:0"
                                [("temperature", JFloat (1 # 2));
                                 ("bogus", JInt 1)]))));
    reflexivity.
Defined.

(** ** The model access validator *)

Module AccessFacts.

Import Helpers Trace.

Section WithWorld.

Context {W : Type} (o : oracles W).

Lemma do_invoke_model_eq (model_id : string) (request : json)
  (s : state W) :
  exists r w,
    do_invoke_model o model_id request s =
    Some (r, {| world := w;
                trace := trace s
                         ++ [EvInvokeModel model_id request
                               match r with
                               | Return _ => None
                               | Raise e => Some e
                               end];
                self := self s |}).
Proof.
  unfold do_invoke_model.
  destruct (invoke_model o model_id request (world s)) as [r w].
  now exists r, w.
Qed.

(** One access check, case by case. *)
Lemma validate_model_access_step (model_id : string) (s : state W) :
  validate_model_access o model_id s =
  match access_request model_id with
  | None => Some (Raise (ValueError (unsupported_msg "            ")), s)
  | Some request =>
      match do_invoke_model o model_id request s with
      | Some (Return _, s1) => Some (Return true, s1)
      | Some (Raise e, s1) =>
          Some (if access_denied (Some e) then Return false else Raise e,
                s1)
      | None => None
      end
  end.
Proof.
  unfold validate_model_access, try_except, bind, ret, raise.
  destruct (access_request model_id) as [request|]; [|reflexivity].
  destruct (do_invoke_model o model_id request s) as [[[[]|e] s1]|];
    try reflexivity.
  destruct e; simpl; try reflexivity.
  destruct (String.eqb code "AccessDeniedException"); reflexivity.
Qed.

Lemma request_for_eq (model_id : string) :
  AccessSpec.request_for model_id = access_request model_id.
Proof.
  unfold AccessSpec.request_for, AccessSpec.families, access_request.
  cbn [find fst snd].
  repeat match goal with
         | |- context [PyStr.contains ?name model_id] =>
             destruct (PyStr.contains name model_id); [reflexivity|]
         end.
  reflexivity.
Qed.

Lemma unknown_no_request (model_id : string) :
  AccessSpec.in_scope model_id = true ->
  access_request model_id = None ->
  AccessSpec.unknown model_id = true.
Proof.
  unfold AccessSpec.in_scope. rewrite request_for_eq.
  intros H Hnone. now rewrite Hnone in H.
Qed.

(** One access check in terms of the provider's answer. *)
Lemma validate_model_access_oracle (model_id : string) (request : json)
  (s : state W) :
  access_request model_id = Some request ->
  validate_model_access o model_id s =
  let (r, w) := invoke_model o model_id request (world s) in
  Some (AccessSpec.verdict r,
        {| world := w;
           trace := (trace s
                     ++ [EvInvokeModel model_id request
                           match r with
                           | Return _ => None
                           | Raise e => Some e
                           end])%list;
           self := self s |}).
Proof.
  intros Hreq. rewrite validate_model_access_step, Hreq.
  unfold do_invoke_model.
  destruct (invoke_model o model_id request (world s)) as [[[]|e] w];
    [reflexivity|].
  destruct e; reflexivity.
Qed.

(** The run over a list always comes to an end. *)
Lemma inaccessible_total (model_ids : list string) :
  forall s : state W,
  exists r s', inaccessible o model_ids s = Some (r, s').
Proof.
  induction model_ids as [|id rest IH]; intros s; [now eexists _, _|].
  cbn [inaccessible]. unfold bind at 1.
  rewrite validate_model_access_step.
  destruct (access_request id) as [req|]; [|now eexists _, _].
  destruct (do_invoke_model_eq id req s) as (r & w & ->).
  destruct r as [[]|e];
    [|destruct (Trace.access_denied (Some e)); [|now eexists _, _]];
    match goal with
    | |- context [bind (inaccessible o rest) _ ?s1] =>
        destruct (IH s1) as (r' & s' & Hrun)
    end;
    unfold bind, ret; rewrite Hrun; destruct r'; now eexists _, _.
Qed.

Lemma validate_models_access_total (model_ids : list string)
  (s : state W) :
  exists r s', validate_models_access o model_ids s = Some (r, s').
Proof.
  unfold validate_models_access, bind, call.
  destruct (boto3_client o "bedrock-runtime" (world s)) as [[[]|e] w];
    [apply inaccessible_total | now eexists _, _].
Qed.

(** The list comprehension, tied to the provider. *)
Lemma inaccessible_settled (model_ids : list string) :
  Forall (fun model_id => AccessSpec.in_scope model_id = true) model_ids ->
  forall s : state W,
  exists r s',
    inaccessible o model_ids s = Some (r, s')
    /\ self s' = self s
    /\ AccessSpec.settled o model_ids (world s) r (world s').
Proof.
  intros Hscope. induction Hscope as [|id rest Hid _ IH]; intros s.
  - exists (Return []), s. repeat split.
    exists []. repeat split. constructor.
  - cbn [inaccessible]. unfold bind at 1.
    destruct (access_request id) as [req|] eqn:Hreq.
    + rewrite (validate_model_access_oracle id req s Hreq).
      destruct (invoke_model o id req (world s)) as [r w] eqn:Hinv.
      set (s1 := {| world := w;
                    trace := (trace s
                              ++ [EvInvokeModel id req
                                    match r with
                                    | Return _ => None
                                    | Raise e => Some e
                                    end])%list;
                    self := self s |}).
      assert (Hfor : AccessSpec.request_for id = Some req)
        by now rewrite request_for_eq.
      destruct (IH s1) as (r' & s' & Hrun & Hself & Hres).
      assert (Hanswered :
        AccessSpec.answered r = true ->
        exists rr,
          (ok <- ret (W := W)
                   (if AccessSpec.refused r then false else true) ;;
           bad <- inaccessible o rest ;;
           ret (if negb ok then id :: bad else bad)) s1 = Some (rr, s')
          /\ AccessSpec.settled o (id :: rest) (world s) rr (world s')).
      { intros Hans. unfold bind, ret. rewrite Hrun.
        destruct r' as [bad|e'].
        - eexists. split; [reflexivity|].
          destruct Hres as (rs & Hasked & Hall & ->).
          exists (r :: rs). split; [|split].
          + econstructor; eauto.
          + cbn [forallb]. now rewrite Hans.
          + unfold AccessSpec.refused_of. cbn [combine filter snd].
            destruct (AccessSpec.refused r); reflexivity.
        - eexists. split; [reflexivity|].
          destruct Hres
            as (done & id' & rest' & rs & w1 & -> & Hasked & Hall & Hstop).
          exists (id :: done), id', rest', (r :: rs), w1.
          split; [reflexivity|]. split; [econstructor; eauto|].
          split; [cbn [forallb]; now rewrite Hans|]. exact Hstop. }
      destruct r as [[]|e].
      * destruct (Hanswered eq_refl) as (rr & Hrr & Hsettled).
        cbn [AccessSpec.verdict]. cbn [AccessSpec.refused] in Hrr.
        unfold bind at 1 in Hrr. unfold ret at 1 in Hrr.
        exists rr, s'. split; [exact Hrr|]. split; [exact Hself|].
        exact Hsettled.
      * cbn [AccessSpec.verdict].
        destruct (AccessSpec.refused (Raise e)) eqn:Href.
        -- assert (Hans : AccessSpec.answered (Raise e) = true)
             by exact Href.
           destruct (Hanswered Hans) as (rr & Hrr & Hsettled).
           unfold bind at 1 in Hrr. unfold ret at 1 in Hrr.
           exists rr, s'. split; [exact Hrr|]. split; [exact Hself|].
           exact Hsettled.
        -- exists (Raise e), s1. split; [reflexivity|].
           split; [reflexivity|].
           exists [], id, rest, [], (world s).
           split; [reflexivity|]. split; [constructor|].
           split; [reflexivity|]. right. exists req. auto.
    + rewrite validate_model_access_step, Hreq.
      exists (Raise (ValueError (unsupported_msg "            "))), s.
      split; [reflexivity|]. split; [reflexivity|].
      exists [], id, rest, [], (world s).
      split; [reflexivity|]. split; [constructor|].
      split; [reflexivity|]. left.
      split; [now apply unknown_no_request|]. split; reflexivity.
Qed.

End WithWorld.

End AccessFacts.

(** C7, as the code has it.  The validator goes through the identifiers
    in order.  For an identifier in which titan, mixtral, claude, command
    or stability occurs (the first of these, in this order) it makes one
    request through [invoke_model], with that family's body, in the world
    the request before left; refused access makes the identifier
    inaccessible, any other failure is passed on and ends the run.  An
    identifier in which none of the six family names occurs ends the run
    with the unsupported-model error, and no request is made for it.
    When the run returns, there was exactly one request per identifier
    and the result is the list of the identifiers whose request was
    refused, in input order. *)
Theorem validate_models_access_spec :
  forall (W : Type) (o : oracles W) (model_ids : list string) (s : state W)
         (w0 : W),
    Forall (fun model_id => AccessSpec.in_scope model_id = true) model_ids ->
    boto3_client o "bedrock-runtime" (world s) = (Return tt, w0) ->
    exists r s',
      Helpers.validate_models_access o model_ids s = Some (r, s')
      /\ self s' = self s
      /\ AccessSpec.settled o model_ids w0 r (world s').
Proof.
  intros W o model_ids s w0 Hscope Hclient.
  unfold Helpers.validate_models_access, bind, call. rewrite Hclient.
  apply (AccessFacts.inaccessible_settled o model_ids Hscope
           {| world := w0; trace := trace s; self := self s |}).
Qed.

Lemma validate_models_access_spec_witness :
  exists r s',
    Helpers.validate_models_access (Ledger.oracles_of Ledger.refusing)
      ["amazon.titan-text-express-v1";
       "anthropic.claude-3-sonnet-20240229-v1:0"] Ledger.start
    = Some (r, s')
    /\ self s' = self Ledger.start
    /\ AccessSpec.settled (Ledger.oracles_of Ledger.refusing)
         ["amazon.titan-text-express-v1";
          "anthropic.claude-3-sonnet-20240229-v1:0"]
         [Ledger.AskedClient "bedrock-runtime"] r (world s').
Proof.
  apply (validate_models_access_spec Ledger.W
           (Ledger.oracles_of Ledger.refusing)
           ["amazon.titan-text-express-v1";
            "anthropic.claude-3-sonnet-20240229-v1:0"] Ledger.start).
  - repeat (apply Forall_cons; [reflexivity|]). apply Forall_nil.
  - reflexivity.
Defined.

(** C7 as stated fails: for one identifier of a family the validators do
    not know, with a provider that answers every request, the run makes
    no request at all (the ledger holds the creation of the client and
    nothing else) and returns nothing; the unsupported-model error comes
    out instead. *)
Lemma validate_models_access_unknown_counterexample :
  let run :=
    Helpers.validate_models_access (Ledger.oracles_of Ledger.sound)
      ["meta.llama3-8b-instruct-v1:0"] Ledger.start in
  (forall bad s', run <> Some (Return bad, s'))
  /\ (exists s',
        run = Some (Raise (ValueError AccessSpec.unsupported_text), s')
        /\ world s' = [Ledger.AskedClient "bedrock-runtime"]
        /\ trace s' = []).
Proof.
  split.
  - intros bad s'. vm_compute. discriminate.
  - eexists. split; [vm_compute; reflexivity|]. split; reflexivity.
Qed.

(** C9.  An identifier that contains "ai21" and none of "titan",
    "mixtral", "claude", "command", "stability" makes the access check
    raise the unsupported-model error with the state as it was: no request
    is issued and the identifier gets no answer.  The parameter validator
    takes the same identifier as one of the Jurassic family. *)
Theorem ai21_access_unsupported :
  forall (W : Type) (o : oracles W) (model_id : string) (s : state W),
    PyStr.contains "ai21" model_id = true ->
    PyStr.contains "titan" model_id = false ->
    PyStr.contains "mixtral" model_id = false ->
    PyStr.contains "claude" model_id = false ->
    PyStr.contains "command" model_id = false ->
    PyStr.contains "stability" model_id = false ->
    Helpers.validate_model_access o model_id s
    = Some (Raise (ValueError (Helpers.unsupported_msg "            ")), s)
    /\ Helpers.access_request model_id = None
    /\ Helpers.inference_family model_id = Some Helpers.Jurassic
    /\ Helpers.validate_inference_parameters model_id (@nil (string * json))
       = Return true.
Proof.
  intros W o model_id s Hai Ht Hm Hc Hco Hs.
  assert (Hreq : Helpers.access_request model_id = None).
  { unfold Helpers.access_request. now rewrite Ht, Hm, Hc, Hco, Hs. }
  assert (Hfam : Helpers.inference_family model_id = Some Helpers.Jurassic).
  { unfold Helpers.inference_family. now rewrite Ht, Hai. }
  repeat split; auto.
  - rewrite AccessFacts.validate_model_access_step. now rewrite Hreq.
  - unfold Helpers.validate_inference_parameters. now rewrite Hfam.
Qed.

Lemma ai21_access_unsupported_witness :
  Helpers.validate_model_access (Script.oracles_of Script.friendly)
    "ai21.j2-ultra-v1" (Script.start [])
  = Some (Raise (ValueError (Helpers.unsupported_msg "            ")),
          Script.start [])
  /\ Helpers.access_request "ai21.j2-ultra-v1" = None
  /\ Helpers.inference_family "ai21.j2-ultra-v1" = Some Helpers.Jurassic
  /\ Helpers.validate_inference_parameters "ai21.j2-ultra-v1"
       (@nil (string * json))
     = Return true.
Proof.
  apply (ai21_access_unsupported Script.W (Script.oracles_of Script.friendly)
           "ai21.j2-ultra-v1" (Script.start [])); reflexivity.
Defined.

(** ** Constructing the client *)

(** C10, as the code has it.  [MCPClient.__init__] runs the access check
    on the identifier anthropic.claude-3-sonnet-20240229-v1:0 and drops
    its result.  Whatever list the check returns, the constructor goes on
    to build the model object for that identifier with temperature 0 and
    no token limit, in the world the check left: when that succeeds the
    client is built with no session, an empty exit stack and this model
    bound; when it raises, so does the constructor.  When the check
    raises, the constructor raises with it and no model is built.  In
    particular a provider that refuses access makes the check return the
    identifier as inaccessible, and the client is built all the same. *)
Theorem MCPClient_init_ignores_access_result :
  forall (W : Type) (o : oracles W) (s : state W),
    let bound :=
      {| model := "anthropic.claude-3-sonnet-20240229-v1:0";
         temperature := 0;
         max_tokens := None |} in
    match
      Helpers.validate_models_access o
        ["anthropic.claude-3-sonnet-20240229-v1:0"] s
    with
    | Some (Return bad, s1) =>
        match new_ChatBedrockConverse o bound (world s1) with
        | (Return _, w2) =>
            Client.MCPClient_init o s
            = Some (Return tt,
                    {| world := w2;
                       trace := trace s1;
                       self := {| session := None;
                                  exit_stack := [];
                                  llm := Some bound |} |})
        | (Raise e, w2) =>
            exists s2,
              Client.MCPClient_init o s = Some (Raise e, s2)
              /\ world s2 = w2 /\ trace s2 = trace s1
        end
    | Some (Raise e, s1) => Client.MCPClient_init o s = Some (Raise e, s1)
    | None => False
    end
    /\ (forall w1 w2 w3 msg,
          boto3_client o "bedrock-runtime" (world s) = (Return tt, w1) ->
          invoke_model o "anthropic.claude-3-sonnet-20240229-v1:0"
            Helpers.claude_request w1
          = (Raise (ClientError "AccessDeniedException" msg), w2) ->
          new_ChatBedrockConverse o bound w2 = (Return tt, w3) ->
          exists s1,
            Helpers.validate_models_access o
              ["anthropic.claude-3-sonnet-20240229-v1:0"] s
            = Some (Return ["anthropic.claude-3-sonnet-20240229-v1:0"], s1)
            /\ world s1 = w2
            /\ Client.MCPClient_init o s
               = Some (Return tt,
                       {| world := w3;
                          trace := trace s1;
                          self := {| session := None;
                                     exit_stack := [];
                                     llm := Some bound |} |})).
Proof.
  intros W o s bound.
  assert (Hgen :
    match
      Helpers.validate_models_access o
        ["anthropic.claude-3-sonnet-20240229-v1:0"] s
    with
    | Some (Return bad, s1) =>
        match new_ChatBedrockConverse o bound (world s1) with
        | (Return _, w2) =>
            Client.MCPClient_init o s
            = Some (Return tt,
                    {| world := w2;
                       trace := trace s1;
                       self := {| session := None;
                                  exit_stack := [];
                                  llm := Some bound |} |})
        | (Raise e, w2) =>
            exists s2,
              Client.MCPClient_init o s = Some (Raise e, s2)
              /\ world s2 = w2 /\ trace s2 = trace s1
        end
    | Some (Raise e, s1) => Client.MCPClient_init o s = Some (Raise e, s1)
    | None => False
    end).
  { destruct (AccessFacts.validate_models_access_total o
                ["anthropic.claude-3-sonnet-20240229-v1:0"] s)
      as (r & s1 & Hrun).
    assert (Hinit :
      Client.MCPClient_init o s
      = match r with
        | Return _ =>
            match new_ChatBedrockConverse o bound (world s1) with
            | (Return _, w2) =>
                Some (Return tt,
                      {| world := w2;
                         trace := trace s1;
                         self := {| session := None;
                                    exit_stack := [];
                                    llm := Some bound |} |})
            | (Raise e, w2) =>
                Some (Raise e,
                      {| world := w2;
                         trace := trace s1;
                         self := {| session := None;
                                    exit_stack := [];
                                    llm := None |} |})
            end
        | Raise e => Some (Raise e, s1)
        end).
    { unfold Client.MCPClient_init. unfold bind at 1.
      change Client.claude_model_id
        with "anthropic.claude-3-sonnet-20240229-v1:0".
      rewrite Hrun. destruct r as [bad|e]; [|reflexivity].
      unfold_monad. cbn [world trace self]. fold bound.
      destruct (new_ChatBedrockConverse o bound (world s1)) as [[[]|e] w2];
        reflexivity. }
    rewrite Hrun, Hinit. destruct r as [bad|e]; [|reflexivity].
    destruct (new_ChatBedrockConverse o bound (world s1)) as [[[]|e] w2].
    - reflexivity.
    - eexists. split; [reflexivity|]. split; reflexivity. }
  split; [exact Hgen|].
  intros w1 w2 w3 msg Hclient Hdenied Hbuilt.
  assert (Hrun :
    Helpers.validate_models_access o
      ["anthropic.claude-3-sonnet-20240229-v1:0"] s
    = Some (Return ["anthropic.claude-3-sonnet-20240229-v1:0"],
            {| world := w2;
               trace := (trace s
                         ++ [EvInvokeModel
                               "anthropic.claude-3-sonnet-20240229-v1:0"
                               Helpers.claude_request
                               (Some (ClientError "AccessDeniedException"
                                        msg))])%list;
               self := self s |})).
  { unfold Helpers.validate_models_access, bind, call. rewrite Hclient.
    cbn [Helpers.inaccessible]. unfold bind.
    rewrite (AccessFacts.validate_model_access_oracle o
               "anthropic.claude-3-sonnet-20240229-v1:0"
               Helpers.claude_request _ eq_refl).
    cbn [world trace self]. rewrite Hdenied. reflexivity. }
  eexists. split; [exact Hrun|]. split; [reflexivity|].
  rewrite Hrun in Hgen. cbn [world trace] in Hgen.
  rewrite Hbuilt in Hgen. exact Hgen.
Qed.

Lemma MCPClient_init_ignores_access_result_witness :
  exists s1,
    Helpers.validate_models_access (Ledger.oracles_of Ledger.refusing)
      ["anthropic.claude-3-sonnet-20240229-v1:0"] Ledger.start
    = Some (Return ["anthropic.claude-3-sonnet-20240229-v1:0"], s1)
    /\ world s1
       = [ Ledger.AskedClient "bedrock-runtime";
           Ledger.AskedModel "anthropic.claude-3-sonnet-20240229-v1:0"
             Helpers.claude_request ]
    /\ Client.MCPClient_init (Ledger.oracles_of Ledger.refusing)
         Ledger.start
       = Some (Return tt,
               {| world :=
                    [ Ledger.AskedClient "bedrock-runtime";
                      Ledger.AskedModel
                        "anthropic.claude-3-sonnet-20240229-v1:0"
                        Helpers.claude_request;
                      Ledger.BuiltModel
                        {| model := "anthropic.claude-3-sonnet-20240229-v1:0";
                           temperature := 0;
                           max_tokens := None |} ];
                  trace := trace s1;
                  self :=
                    {| session := None;
                       exit_stack := [];
                       llm :=
                         Some
                           {| model :=
                                "anthropic.claude-3-sonnet-20240229-v1:0";
                              temperature := 0;
                              max_tokens := None |} |} |}).
Proof.
  apply (proj2 (MCPClient_init_ignores_access_result Ledger.W
                  (Ledger.oracles_of Ledger.refusing) Ledger.start)
           [Ledger.AskedClient "bedrock-runtime"] _ _ "denied");
    reflexivity.
Defined.

(** C10 as stated fails: construction does not fail only when the check
    raises.  With a provider that answers the check, so that the check
    returns the empty list, and a model library that cannot build the
    model object, the constructor raises the library's exception. *)
Lemma MCPClient_init_model_counterexample :
  (exists s1,
      Helpers.validate_models_access (Ledger.oracles_of Ledger.broken_model)
        ["anthropic.claude-3-sonnet-20240229-v1:0"] Ledger.start
      = Some (Return [], s1))
  /\ (exists s2,
        Client.MCPClient_init (Ledger.oracles_of Ledger.broken_model)
          Ledger.start
        = Some (Raise (OtherException "ValidationError" "no region"), s2)).
Proof.
  split; eexists; vm_compute; reflexivity.
Qed.

(** ** Connecting *)

(** C3.  [connect_to_server] picks the interpreter by suffix.  For a path
    ending in ".py" it asks the stdio client, in the world as it is, for
    a process running "python" with the path as the only argument and no
    environment, and for a path ending in ".js" for one running "node" in
    the same way; what follows is the session on that transport.  Any
    other path raises the ValueError for an unsupported script with the
    state, and so the world, untouched: no process is asked for. *)
Theorem connect_to_server_by_suffix :
  forall (W : Type) (o : oracles W) (path : string) (s : state W),
    Client.connect_to_server o path s =
    if PyStr.endswith path ".py" then ConnectSpec.launch o "python" path s
    else if PyStr.endswith path ".js" then ConnectSpec.launch o "node" path s
    else Some (Raise (ValueError "Server script must be a .py or .js file"),
               s).
Proof.
  intros W o path s. unfold Client.connect_to_server.
  destruct (PyStr.endswith path ".py") eqn:Hpy;
    [|destruct (PyStr.endswith path ".js") eqn:Hjs];
    cbn [orb negb]; try reflexivity.
  all: unfold ConnectSpec.launch, ConnectSpec.session_steps,
         Client.enter_async_context; unfold_monad;
    cbn [world trace self exit_stack session llm];
    repeat match goal with
           | |- context [match ?f with (_, _) => _ end] =>
               destruct f as [[?|?] ?];
               cbn [world trace self exit_stack session llm]
           end;
    unfold emit; cbn [world trace self];
    repeat rewrite <- app_assoc; cbn [app]; reflexivity.
Qed.

Lemma connect_to_server_by_suffix_witness :
  Client.connect_to_server (Ledger.oracles_of Ledger.sound) "server.js"
    Ledger.start
  = Some (Return tt,
          {| world := [ Ledger.Spawned {| command := "node";
                                           args := ["server.js"];
                                           env := None |};
                        Ledger.EnteredSession;
                        Ledger.Initialized;
                        Ledger.ListedTools ];
             trace := [ EvStdioClient {| command := "node";
                                         args := ["server.js"];
                                         env := None |};
                        EvAcquire (StdioTransport {| command := "node";
                                                     args := ["server.js"];
                                                     env := None |});
                        EvAcquire SessionContext;
                        EvPrint [ PyStr (PyStr.nl
                                         ++ "Connected to server with tools:");
                                  PyStrList ["echo"] ] ];
             self := {| session := Some tt;
                        exit_stack :=
                          [ SessionContext;
                            StdioTransport {| command := "node";
                                              args := ["server.js"];
                                              env := None |} ];
                        llm := None |} |}).
Proof.
  rewrite (connect_to_server_by_suffix Ledger.W
             (Ledger.oracles_of Ledger.sound) "server.js" Ledger.start).
  reflexivity.
Defined.

(** ** Computations that leave the exit stack alone *)

Module Frame.

Import Client.

Section WithWorld.

Context {W : Type} (o : oracles W).

Lemma preserves_ret {A} (a : A) : preserves (W := W) (ret a).
Proof.
  intros s r s' H. injection H as <- <-. split; [reflexivity|].
  exists []. now rewrite app_nil_r.
Qed.

Lemma preserves_raise {A} (e : exn) : preserves (W := W) (A := A) (raise e).
Proof.
  intros s r s' H. injection H as <- <-. split; [reflexivity|].
  exists []. now rewrite app_nil_r.
Qed.

Lemma preserves_call {A} (f : W -> outcome A * W) : preserves (call f).
Proof.
  intros s r s' H. unfold call in H. destruct (f (world s)) as [r0 w].
  injection H as <- <-. split; [reflexivity|].
  exists []. simpl. now rewrite app_nil_r.
Qed.

Lemma preserves_emit (ev : event) :
  quiet ev = true -> preserves (W := W) (emit ev).
Proof.
  intros Hq s r s' H. injection H as <- <-. split; [reflexivity|].
  exists [ev]. simpl. now rewrite Hq.
Qed.

Lemma preserves_bind {A B} (m : M W A) (k : A -> M W B) :
  preserves m -> (forall a, preserves (k a)) -> preserves (bind m k).
Proof.
  intros Hm Hk s r s' H. unfold bind in H.
  destruct (m s) as [[[a|e] s1]|] eqn:E; [| |discriminate].
  - destruct (Hm _ _ _ E) as (Hs1 & new1 & Ht1 & Hq1).
    destruct (Hk a _ _ _ H) as (Hs2 & new2 & Ht2 & Hq2).
    split; [congruence|]. exists (new1 ++ new2)%list.
    rewrite Ht2, Ht1, app_assoc, forallb_app, Hq1, Hq2. auto.
  - injection H as <- <-. exact (Hm _ _ _ E).
Qed.

Lemma preserves_try_except {A} (body : M W A)
  (handler : exn -> option (M W A)) :
  preserves body ->
  (forall e h, handler e = Some h -> preserves h) ->
  preserves (try_except body handler).
Proof.
  intros Hb Hh s r s' H. unfold try_except in H.
  destruct (body s) as [[[a|e] s1]|] eqn:E; [| |discriminate].
  - injection H as <- <-. exact (Hb _ _ _ E).
  - destruct (handler e) as [h|] eqn:Eh.
    + destruct (Hb _ _ _ E) as (Hs1 & new1 & Ht1 & Hq1).
      destruct (Hh e h Eh _ _ _ H) as (Hs2 & new2 & Ht2 & Hq2).
      split; [congruence|]. exists (new1 ++ new2)%list.
      rewrite Ht2, Ht1, app_assoc, forallb_app, Hq1, Hq2. auto.
    + injection H as <- <-. exact (Hb _ _ _ E).
Qed.

Lemma quiet_projections (new : list event) :
  forallb quiet new = true ->
  Trace.acquired new = [] /\ Trace.released new = []
  /\ Trace.cleanups new = 0.
Proof.
  induction new as [|ev new IH]; simpl; [auto|].
  intros H. apply andb_true_iff in H as [Hq Hrest].
  destruct (IH Hrest) as (Ha & Hr & Hc).
  destruct ev; try discriminate; simpl; auto.
Qed.

(** Go through a computation along its syntax. *)
Ltac frame :=
  repeat match goal with
         | |- preserves (ret _) => apply preserves_ret
         | |- preserves (raise _) => apply preserves_raise
         | |- preserves (call _) => apply preserves_call
         | |- preserves (emit _) => apply preserves_emit; reflexivity
         | |- preserves (print _) => apply preserves_emit; reflexivity
         | |- preserves (bind _ _) => apply preserves_bind; [|intros]
         end.

Lemma preserves_validate_model_access (model_id : string) :
  preserves (Helpers.validate_model_access o model_id).
Proof.
  unfold Helpers.validate_model_access.
  apply preserves_try_except.
  - apply preserves_bind; [destruct (Helpers.access_request model_id); frame|].
    intros request. apply preserves_bind; [|intros; frame].
    intros s r s' H.
    destruct (AccessFacts.do_invoke_model_eq o model_id request s)
      as (r0 & w & E).
    rewrite E in H. injection H as <- <-. split; [reflexivity|].
    eexists [_]. split; reflexivity.
  - intros e h He. destruct e; try discriminate.
    injection He as <-.
    destruct (String.eqb code "AccessDeniedException"); frame.
Qed.

Lemma preserves_validate_models_access (model_ids : list string) :
  preserves (Helpers.validate_models_access o model_ids).
Proof.
  unfold Helpers.validate_models_access. frame.
  induction model_ids as [|id rest IH]; cbn [Helpers.inaccessible];
    frame; [apply preserves_validate_model_access | exact IH].
Qed.

Lemma preserves_act (tools : list Tool) (name tool_input : string) :
  preserves (act o tools name tool_input).
Proof.
  unfold act. destruct (has_tool tools name); frame.
  apply preserves_try_except; frame.
  intros e h He.
  destruct e as [| | |ename detail| | |]; try discriminate.
  destruct (String.eqb ename "ToolInvocationError") eqn:E.
  - apply String.eqb_eq in E. subst ename. injection He as <-. frame.
  - exfalso. revert He E.
    repeat (destruct ename as [|[[] [] [] [] [] [] [] []] ename];
            try discriminate).
Qed.

Lemma preserves_agent_loop (remaining : nat) (tools : list Tool)
  (system_prompt query : string) :
  forall steps,
    preserves (agent_loop o remaining tools system_prompt query steps).
Proof.
  induction remaining as [|n IH]; intros steps; cbn [agent_loop]; frame.
  destruct a0 as [name tool_input|output|]; frame.
  - apply preserves_act.
  - apply IH.
Qed.

Lemma preserves_process_query (query : string) :
  preserves (process_query o query).
Proof.
  unfold process_query. frame.
  - apply preserves_agent_loop.
  - repeat match goal with
           | |- preserves (match ?x with _ => _ end) => destruct x
           end; frame.
Qed.

Lemma preserves_loop_turn : preserves (loop_turn o).
Proof.
  unfold loop_turn, query_cycle. apply preserves_try_except.
  - frame.
    destruct (String.eqb (PyStr.lower (PyStr.strip a)) "quit"); frame.
    apply preserves_process_query.
  - intros e h He. destruct (is_Exception e); [|discriminate].
    injection He as <-. frame.
Qed.

Lemma preserves_chat_loop (fuel : nat) : preserves (chat_loop o fuel).
Proof.
  unfold chat_loop. frame.
  induction fuel as [|n IH]; cbn [while_true].
  - intros s r s' H. discriminate.
  - frame; [apply preserves_loop_turn|]. destruct a1; frame. exact IH.
Qed.

End WithWorld.

End Frame.

(** ** Shutdown *)

Module CleanupFacts.

Import Client.

Section WithWorld.

Context {W : Type} (o : oracles W).

(** Unwinding runs every callback of the stack, top first, and leaves
    the stack empty, whatever the callbacks answer. *)
Lemma unwind_spec (stack : list context) :
  forall (pending : option exn) (s : state W),
  exists pending' w',
    unwind o stack pending s =
    Some (Return pending',
          {| world := w';
             trace := (trace s ++ map EvRelease stack)%list;
             self := {| session := session (self s);
                        exit_stack := match stack with
                                      | [] => exit_stack (self s)
                                      | _ => []
                                      end;
                        llm := llm (self s) |} |}).
Proof.
  induction stack as [|c rest IH]; intros pending s.
  - exists pending, (world s). destruct s as [w tr [se st l]]. simpl.
    now rewrite app_nil_r.
  - cbn [unwind]. unfold_monad. cbn [world trace self].
    destruct (aexit o c pending (world s)) as [[suppress|e] w];
      cbn [world trace self];
      match goal with
      | |- context [unwind o rest ?p ?s1] =>
          destruct (IH p s1) as (p' & w' & ->)
      end;
      exists p', w'; cbn [world trace self session exit_stack llm map];
      rewrite <- app_assoc; destruct rest; reflexivity.
Qed.

Lemma cleanup_spec (s : state W) :
  exists r w',
    cleanup o s =
    Some (r,
          {| world := w';
             trace := (trace s
                       ++ EvCleanup
                          :: map EvRelease (exit_stack (self s)))%list;
             self := {| session := session (self s);
                        exit_stack := [];
                        llm := llm (self s) |} |}).
Proof.
  unfold cleanup, aclose. unfold_monad. cbn [world trace self].
  match goal with
  | |- context [unwind o ?st ?p ?s1] =>
      destruct (unwind_spec st p s1) as (p' & w' & ->)
  end.
  cbn [world trace self session exit_stack llm].
  rewrite <- app_assoc. cbn [app].
  assert (Hst : match exit_stack (self s) with
                | [] => exit_stack (self s)
                | _ :: _ => []
                end = []) by (destruct (exit_stack (self s)); reflexivity).
  rewrite Hst.
  destruct p' as [e|]; eexists _, w'; reflexivity.
Qed.

(** Unwinding is releasing the stack, callback by callback, on the
    world. *)
Lemma unwind_release_all (stack : list context) :
  forall (pending : option exn) (s : state W),
    unwind o stack pending s =
    Some (Return (fst (ReleaseSpec.release_all o stack pending (world s))),
          {| world := snd (ReleaseSpec.release_all o stack pending (world s));
             trace := (trace s ++ map EvRelease stack)%list;
             self := {| session := session (self s);
                        exit_stack := match stack with
                                      | [] => exit_stack (self s)
                                      | _ => []
                                      end;
                        llm := llm (self s) |} |}).
Proof.
  induction stack as [|c rest IH]; intros pending s.
  - destruct s as [w tr [se st l]]. simpl. now rewrite app_nil_r.
  - cbn [unwind ReleaseSpec.release_all]. unfold_monad.
    cbn [world trace self].
    destruct (aexit o c pending (world s)) as [[suppress|e] w];
      cbn [world trace self]; rewrite IH;
      cbn [world trace self session exit_stack llm map];
      rewrite <- app_assoc; destruct rest; reflexivity.
Qed.

Lemma cleanup_release_all (s : state W) :
  cleanup o s =
  Some (match fst (ReleaseSpec.release_all o (exit_stack (self s)) None
                     (world s)) with
        | Some e => Raise e
        | None => Return tt
        end,
        {| world := snd (ReleaseSpec.release_all o (exit_stack (self s))
                           None (world s));
           trace := (trace s
                     ++ EvCleanup
                        :: map EvRelease (exit_stack (self s)))%list;
           self := {| session := session (self s);
                      exit_stack := [];
                      llm := llm (self s) |} |}).
Proof.
  unfold cleanup, aclose. unfold_monad. cbn [world trace self].
  rewrite unwind_release_all. cbn [world trace self session exit_stack llm].
  rewrite <- app_assoc. cbn [app].
  assert (Hst : match exit_stack (self s) with
                | [] => exit_stack (self s)
                | _ :: _ => []
                end = []) by (destruct (exit_stack (self s)); reflexivity).
  rewrite Hst.
  destruct (fst (ReleaseSpec.release_all o (exit_stack (self s)) None
                   (world s))); reflexivity.
Qed.

(** With nothing on the stack, [cleanup] only returns. *)
Lemma cleanup_empty (s : state W) :
  exit_stack (self s) = [] ->
  cleanup o s =
  Some (Return tt,
        {| world := world s;
           trace := (trace s ++ [EvCleanup])%list;
           self := self s |}).
Proof.
  intros Hst. unfold cleanup, aclose. unfold_monad.
  cbn [world trace self]. rewrite Hst. reflexivity.
Qed.

End WithWorld.

End CleanupFacts.

(** C5.  A second [cleanup] right after a first one returns without an
    error, calls no exit callback and does not touch the world: every
    context of the stack is released by the first call, in stack order,
    and by no later one. *)
Theorem cleanup_twice :
  forall (W : Type) (o : oracles W) (s : state W),
  exists r1 s1,
    Client.cleanup o s = Some (r1, s1)
    /\ trace s1
       = (trace s ++ EvCleanup :: map EvRelease (exit_stack (self s)))%list
    /\ exit_stack (self s1) = []
    /\ Client.cleanup o s1
       = Some (Return tt,
               {| world := world s1;
                  trace := (trace s1 ++ [EvCleanup])%list;
                  self := self s1 |})
    /\ Trace.released (trace s1 ++ [EvCleanup])
       = Trace.released (trace s1).
Proof.
  intros W o s.
  destruct (CleanupFacts.cleanup_spec o s) as (r & w' & H).
  eexists _, _. split; [exact H|]. cbn [trace self exit_stack].
  split; [reflexivity|]. split; [reflexivity|]. split.
  - now apply CleanupFacts.cleanup_empty.
  - unfold Trace.released. rewrite flat_map_app. simpl. now rewrite app_nil_r.
Qed.

(** ** The session from start to end *)

Module SessionFacts.

Import Client.

Lemma acquired_app (a b : list event) :
  Trace.acquired (a ++ b) = (Trace.acquired a ++ Trace.acquired b)%list.
Proof. apply flat_map_app. Qed.

Lemma released_app (a b : list event) :
  Trace.released (a ++ b) = (Trace.released a ++ Trace.released b)%list.
Proof. apply flat_map_app. Qed.

Lemma cleanups_app (a b : list event) :
  Trace.cleanups (a ++ b) = Trace.cleanups a + Trace.cleanups b.
Proof. unfold Trace.cleanups. now rewrite filter_app, length_app. Qed.

Section WithWorld.

Context {W : Type} (o : oracles W).

(** However far [connect_to_server] gets, the exit stack holds what it
    acquired, last first, and nothing was released. *)
Lemma connect_acquires (path : string) (s : state W) :
  exit_stack (self s) = [] ->
  exists r s' new,
    connect_to_server o path s = Some (r, s')
    /\ trace s' = (trace s ++ new)%list
    /\ exit_stack (self s') = rev (Trace.acquired new)
    /\ acquisition_order (Trace.acquired new)
    /\ Trace.released new = []
    /\ Trace.cleanups new = 0.
Proof.
  intros Hst. unfold connect_to_server.
  destruct (PyStr.endswith path ".py" || PyStr.endswith path ".js")
    eqn:Hsuffix; cbn [negb].
  - set (params := {| command := if PyStr.endswith path ".py"
                                 then "python" else "node";
                      args := [path]; env := None |}).
    unfold enter_async_context; unfold_monad.
    cbn [world trace self exit_stack]; split_oracles;
      rewrite ?Hst;
      eexists _, _, _; (split; [reflexivity|]);
      cbn [trace self exit_stack]; repeat rewrite <- app_assoc;
      (split; [reflexivity|]); cbn; rewrite ?Hst;
      (split; [reflexivity|]);
      (split; [exists params; auto|]); split; reflexivity.
  - unfold_monad. exists (Raise (ValueError
                                 "Server script must be a .py or .js file")),
      s, []. rewrite app_nil_r, Hst.
    repeat split. exists {| command := ""; args := []; env := None |}.
    auto.
Qed.

Lemma MCPClient_init_spec (s s1 : state W) (r : outcome unit) :
  MCPClient_init o s = Some (r, s1) ->
  (exists new, trace s1 = (trace s ++ new)%list
               /\ forallb quiet new = true)
  /\ (forall u, r = Return u -> self s1 = fresh_client).
Proof.
  unfold MCPClient_init. unfold bind at 1. intros H.
  destruct (Helpers.validate_models_access o [claude_model_id] s)
    as [[[bad|e] s0]|] eqn:E; [| |discriminate].
  - destruct (Frame.preserves_validate_models_access o _ _ _ _ E)
      as (_ & new & Htr & Hq).
    revert H. unfold_monad. cbn [world trace self].
    destruct (new_ChatBedrockConverse o _ (world s0)) as [[[]|e] w];
      intros H; injection H as <- <-; cbn [trace self];
      (split; [now exists new|]); [reflexivity | discriminate].
  - destruct (Frame.preserves_validate_models_access o _ _ _ _ E)
      as (_ & new & Htr & Hq).
    injection H as <- <-. split; [now exists new|]. discriminate.
Qed.

(** The [try] block of [main]: connect, then the chat loop. *)
Lemma session_body_spec (fuel : nat) (path : string)
  (s s' : state W) (r : outcome unit) :
  exit_stack (self s) = [] ->
  bind (connect_to_server o path) (fun _ => chat_loop o fuel) s
  = Some (r, s') ->
  exists new,
    trace s' = (trace s ++ new)%list
    /\ exit_stack (self s') = rev (Trace.acquired new)
    /\ acquisition_order (Trace.acquired new)
    /\ Trace.released new = []
    /\ Trace.cleanups new = 0.
Proof.
  intros Hst H. unfold bind in H.
  destruct (connect_acquires path s Hst)
    as (r1 & s1 & new1 & E & Htr & Hstack & Hord & Hrel & Hcl).
  rewrite E in H. destruct r1 as [[]|e].
  - destruct (Frame.preserves_chat_loop o fuel _ _ _ H)
      as (Hself & new2 & Htr2 & Hq).
    destruct (Frame.quiet_projections new2 Hq) as (Ha & Hr & Hc).
    exists (new1 ++ new2)%list.
    rewrite acquired_app, released_app, cleanups_app, Ha, Hr, Hc.
    rewrite app_nil_r, Hrel, Hcl, Hself, Htr2, Htr, app_assoc. auto.
  - injection H as <- <-. exists new1. auto.
Qed.

End WithWorld.

Lemma gives_up_rev (l : list context) :
  flat_map ReleaseSpec.gives_up (rev l)
  = rev (flat_map ReleaseSpec.holds l).
Proof.
  induction l as [|c l IH]; [reflexivity|].
  cbn [rev flat_map]. rewrite flat_map_app, IH, rev_app_distr.
  cbn [flat_map]. now rewrite app_nil_r.
Qed.

Lemma released_map (l : list context) :
  Trace.released (map EvRelease l) = l
  /\ Trace.acquired (map EvRelease l) = []
  /\ Trace.cleanups (map EvRelease l) = 0.
Proof.
  induction l as [|c l (Hr & Ha & Hc)]; simpl; [auto|].
  repeat split; [now f_equal | exact Ha | exact Hc].
Qed.

End SessionFacts.

(** C4.  When [main] comes to an end, either the client was never built
    (usage error, or the constructor raised) and nothing was acquired, or
    the [try] block was entered and [cleanup] ran exactly once, after
    everything else.  It then ran the exit callback of every acquired
    context exactly once, on the world the [try] block left, the session
    context before the stdio transport, and left the exit stack empty;
    the outcome of [main] is the one of the [try] block unless a callback
    left an exception pending.  This holds whether the chat loop
    returned, raised, or [connect_to_server] failed with none, one or
    both contexts acquired.  Counted in resources, with the transport
    holding the child process and the duplex channel, the releases are
    the acquisitions reversed: session, duplex channel, child process. *)
Theorem main_cleanup_once :
  forall (W : Type) (o : oracles W) (fuel : nat) (argv : list string)
         (s s' : state W) (r : outcome unit),
    Client.main o fuel argv s = Some (r, s') ->
    (exists new,
        trace s' = (trace s ++ new)%list
        /\ (length argv < 2
            \/ exists e, Client.MCPClient_init o s = Some (Raise e, s'))
        /\ Trace.acquired new = [] /\ Trace.released new = []
        /\ Trace.cleanups new = 0 /\ exists e, r = Raise e)
    \/ (exists s1 rb sb before,
          Client.MCPClient_init o s = Some (Return tt, s1)
          /\ (Client.connect_to_server o (nth 1 argv EmptyString) ;;;
              Client.chat_loop o fuel) s1 = Some (rb, sb)
          /\ trace sb = (trace s ++ before)%list
          /\ Client.acquisition_order (Trace.acquired before)
          /\ Trace.released before = []
          /\ Trace.cleanups before = 0
          /\ exit_stack (self sb) = rev (Trace.acquired before)
          /\ world s'
             = snd (ReleaseSpec.release_all o (rev (Trace.acquired before))
                      None (world sb))
          /\ r = match fst (ReleaseSpec.release_all o
                              (rev (Trace.acquired before)) None (world sb))
                 with
                 | Some e => Raise e
                 | None => rb
                 end
          /\ trace s'
             = (trace sb
                ++ EvCleanup
                   :: map EvRelease (rev (Trace.acquired before)))%list
          /\ exit_stack (self s') = []
          /\ ReleaseSpec.released_resources
               (before
                ++ EvCleanup
                   :: map EvRelease (rev (Trace.acquired before)))
             = rev (ReleaseSpec.acquired_resources before)
          /\ (forall params,
                Trace.acquired before
                = [StdioTransport params; SessionContext] ->
                ReleaseSpec.released_resources
                  (before
                   ++ EvCleanup
                      :: map EvRelease (rev (Trace.acquired before)))
                = [ ReleaseSpec.SessionHandle; ReleaseSpec.DuplexChannel;
                    ReleaseSpec.ChildProcess ])).
Proof.
  intros W o fuel argv s s' r H. unfold Client.main in H.
  unfold bind at 1 in H.
  destruct (length argv <? 2)%nat eqn:Hlen.
  - (* usage *)
    left. unfold_monad. cbn in H. injection H as <- <-.
    eexists [_]. split; [reflexivity|].
    split; [left; now apply Nat.ltb_lt|].
    repeat split. now eexists.
  - unfold ret at 1 in H. unfold bind at 1 in H.
    destruct (Client.MCPClient_init o s) as [[[[]|e] s1]|] eqn:Einit;
      [| |discriminate].
    + right.
      destruct (SessionFacts.MCPClient_init_spec o _ _ _ Einit)
        as ((new0 & Htr0 & Hq0) & Hfresh).
      specialize (Hfresh tt eq_refl).
      destruct (Frame.quiet_projections new0 Hq0) as (Ha0 & Hr0 & Hc0).
      unfold try_finally in H.
      match type of H with
      | context [bind ?m ?k s1] =>
          destruct (bind m k s1) as [[rb sb]|] eqn:Ebody; [|discriminate]
      end.
      assert (Hst1 : exit_stack (self s1) = []) by now rewrite Hfresh.
      destruct (SessionFacts.session_body_spec o _ _ _ _ _ Hst1 Ebody)
        as (new1 & Htr1 & Hstack & Hord & Hrel & Hcl).
      rewrite (CleanupFacts.cleanup_release_all o sb) in H.
      assert (Hacq : Trace.acquired (new0 ++ new1) = Trace.acquired new1)
        by now rewrite SessionFacts.acquired_app, Ha0.
      assert (Hrel01 : Trace.released (new0 ++ new1) = [])
        by now rewrite SessionFacts.released_app, Hr0, Hrel.
      assert (Hres :
        ReleaseSpec.released_resources
          ((new0 ++ new1)
           ++ EvCleanup
              :: map EvRelease (rev (Trace.acquired (new0 ++ new1))))
        = rev (ReleaseSpec.acquired_resources (new0 ++ new1))).
      { unfold ReleaseSpec.released_resources,
          ReleaseSpec.acquired_resources.
        remember (new0 ++ new1)%list as bef.
        remember (rev (Trace.acquired bef)) as l.
        change (EvCleanup :: map EvRelease l)
          with ([EvCleanup] ++ map EvRelease l)%list.
        rewrite !SessionFacts.released_app, Hrel01.
        destruct (SessionFacts.released_map l) as (-> & _ & _).
        cbn [Trace.released flat_map app]. subst l.
        apply SessionFacts.gives_up_rev. }
      exists s1, rb, sb, (new0 ++ new1)%list.
      rewrite Hacq. rewrite Hacq in Hres. rewrite <- Hstack.
      rewrite <- Hstack in Hres.
      split; [reflexivity|]. split; [exact Ebody|].
      split; [now rewrite Htr1, Htr0, app_assoc|].
      split; [exact Hord|]. split; [exact Hrel01|].
      split; [now rewrite SessionFacts.cleanups_app, Hc0, Hcl|].
      split; [reflexivity|].
      destruct (fst (ReleaseSpec.release_all o (exit_stack (self sb)) None
                       (world sb))) as [ex|];
        injection H as <- <-; cbn [world trace self exit_stack];
        (split; [reflexivity|]); (split; [reflexivity|]);
        (split; [reflexivity|]); (split; [reflexivity|]);
        (split; [exact Hres|]);
        intros params Hp; rewrite Hres;
        unfold ReleaseSpec.acquired_resources;
        rewrite Hacq, Hp; reflexivity.
    + (* the constructor raised *)
      left. injection H as <- <-.
      destruct (SessionFacts.MCPClient_init_spec o _ _ _ Einit)
        as ((new0 & Htr0 & Hq0) & _).
      destruct (Frame.quiet_projections new0 Hq0) as (Ha0 & Hr0 & Hc0).
      exists new0. split; [exact Htr0|].
      split; [right; now exists e|]. repeat split; auto.
      now eexists.
Qed.

(** A server that does not answer the handshake: both contexts were
    acquired, [connect_to_server] raises, and [cleanup] runs the exit
    callback of the session and then the one of the transport. *)
Lemma main_cleanup_once_witness :
  exists r s',
    Client.main (Ledger.oracles_of Ledger.broken_handshake) 1
      ["client.py"; "server.py"] Ledger.start = Some (r, s')
    /\ world s'
       = [ Ledger.AskedClient "bedrock-runtime";
           Ledger.AskedModel "anthropic.claude-3-sonnet-20240229-v1:0"
             Helpers.claude_request;
           Ledger.BuiltModel
             {| model := "anthropic.claude-3-sonnet-20240229-v1:0";
                temperature := 0; max_tokens := None |};
           Ledger.Spawned Script.python_params;
           Ledger.EnteredSession;
           Ledger.Initialized;
           Ledger.Exited SessionContext;
           Ledger.Exited (StdioTransport Script.python_params) ]
    /\ ((exists new,
           trace s' = (trace Ledger.start ++ new)%list
           /\ (length ["client.py"; "server.py"] < 2
               \/ exists e,
                   Client.MCPClient_init
                     (Ledger.oracles_of Ledger.broken_handshake)
                     Ledger.start
                   = Some (Raise e, s'))
           /\ Trace.acquired new = [] /\ Trace.released new = []
           /\ Trace.cleanups new = 0 /\ exists e, r = Raise e)
        \/ (exists s1 rb sb before,
              Client.MCPClient_init
                (Ledger.oracles_of Ledger.broken_handshake) Ledger.start
              = Some (Return tt, s1)
              /\ (Client.connect_to_server
                    (Ledger.oracles_of Ledger.broken_handshake)
                    (nth 1 ["client.py"; "server.py"] EmptyString) ;;;
                  Client.chat_loop
                    (Ledger.oracles_of Ledger.broken_handshake) 1) s1
                 = Some (rb, sb)
              /\ trace sb = (trace Ledger.start ++ before)%list
              /\ Client.acquisition_order (Trace.acquired before)
              /\ Trace.released before = []
              /\ Trace.cleanups before = 0
              /\ exit_stack (self sb) = rev (Trace.acquired before)
              /\ world s'
                 = snd (ReleaseSpec.release_all
                          (Ledger.oracles_of Ledger.broken_handshake)
                          (rev (Trace.acquired before)) None (world sb))
              /\ r = match fst (ReleaseSpec.release_all
                                  (Ledger.oracles_of Ledger.broken_handshake)
                                  (rev (Trace.acquired before)) None
                                  (world sb))
                     with
                     | Some e => Raise e
                     | None => rb
                     end
              /\ trace s'
                 = (trace sb
                    ++ EvCleanup
                       :: map EvRelease (rev (Trace.acquired before)))%list
              /\ exit_stack (self s') = []
              /\ ReleaseSpec.released_resources
                   (before
                    ++ EvCleanup
                       :: map EvRelease (rev (Trace.acquired before)))
                 = rev (ReleaseSpec.acquired_resources before)
              /\ (forall params,
                    Trace.acquired before
                    = [StdioTransport params; SessionContext] ->
                    ReleaseSpec.released_resources
                      (before
                       ++ EvCleanup
                          :: map EvRelease (rev (Trace.acquired before)))
                    = [ ReleaseSpec.SessionHandle;
                        ReleaseSpec.DuplexChannel;
                        ReleaseSpec.ChildProcess ]))).
Proof.
  eexists _, _. split; [vm_compute; reflexivity|].
  split; [reflexivity|].
  apply (main_cleanup_once Ledger.W
           (Ledger.oracles_of Ledger.broken_handshake) 1
           ["client.py"; "server.py"] Ledger.start).
  vm_compute. reflexivity.
Defined.

Lemma cleanup_twice_witness :
  exists r1 s1,
    Client.cleanup (Script.oracles_of Script.friendly)
      (Script.connected []) = Some (r1, s1)
    /\ trace s1
       = (trace (Script.connected [])
          ++ EvCleanup
             :: map EvRelease (exit_stack (self (Script.connected []))))%list
    /\ exit_stack (self s1) = []
    /\ Client.cleanup (Script.oracles_of Script.friendly) s1
       = Some (Return tt,
               {| world := world s1;
                  trace := (trace s1 ++ [EvCleanup])%list;
                  self := self s1 |})
    /\ Trace.released (trace s1 ++ [EvCleanup])
       = Trace.released (trace s1).
Proof.
  exact (cleanup_twice Script.W (Script.oracles_of Script.friendly)
           (Script.connected [])).
Defined.

(** ** The read loop *)

Module LoopFacts.

Import PyStr Client Sentinel.

Lemma lstrip_spaces (before s : string) :
  all_space before = true -> lstrip (before ++ s) = lstrip s.
Proof.
  induction before as [|c before IH]; simpl; [reflexivity|].
  intros H. apply andb_true_iff in H as [Hc Hrest].
  rewrite Hc. now apply IH.
Qed.

Lemma rstrip_spaces (after : string) :
  all_space after = true -> rstrip after = EmptyString.
Proof.
  induction after as [|c after IH]; simpl; [reflexivity|].
  intros H. apply andb_true_iff in H as [Hc Hrest].
  now rewrite Hc, (IH Hrest).
Qed.

(** The code's test accepts every quit line. *)
Lemma quit_line_lower_strip (line : string) :
  is_quit_line line -> String.eqb (lower (strip line)) "quit" = true.
Proof.
  intros (before & token & after & -> & Hb & Ha & Htok).
  destruct Htok as (q & u & i & t & -> & Hq & Hu & Hi & Ht).
  unfold strip. rewrite (lstrip_spaces _ _ Hb).
  destruct Hq as [-> | ->], Hu as [-> | ->], Hi as [-> | ->],
        Ht as [-> | ->];
    cbn [append lstrip isspace]; simpl;
    rewrite (rstrip_spaces _ Ha); reflexivity.
Qed.

Section WithWorld.

Context {W : Type} (o : oracles W).

(** A quit line ends the turn at once. *)
Lemma loop_turn_quit (line : string) (s : state W) (w : W) :
  is_quit_line line ->
  input_ o (nl ++ "Query: ") (world s) = (Return line, w) ->
  loop_turn o s
  = Some (Return Break,
          {| world := w; trace := trace s; self := self s |}).
Proof.
  intros Hq Hin. unfold loop_turn, query_cycle, try_except, bind, call.
  rewrite Hin. now rewrite (quit_line_lower_strip line Hq).
Qed.

(** A successful connect leaves both contexts on the stack, the
    transport being the one of the interpreter chosen for the path. *)
Lemma connect_success (path : string) (s s' : state W) :
  connect_to_server o path s = Some (Return tt, s') ->
  exit_stack (self s')
  = SessionContext
    :: StdioTransport
         {| command := if PyStr.endswith path ".py" then "python"
                       else "node";
            args := [path];
            env := None |}
    :: exit_stack (self s)
  /\ session (self s') = Some tt
  /\ llm (self s') = llm (self s).
Proof.
  unfold connect_to_server.
  destruct (PyStr.endswith path ".py" || PyStr.endswith path ".js");
    cbn [negb]; [|discriminate].
  unfold enter_async_context; unfold_monad.
  cbn [world trace self exit_stack]; split_oracles;
    intros H; try discriminate.
  injection H as <-. repeat split.
Qed.

End WithWorld.

End LoopFacts.

(** C2.  A line that is the token quit in any mix of cases, with only
    whitespace around it, ends the read loop at once: the loop returns
    with nothing printed and no query processed.  When such a line is the
    first one of a session, [main] prints the two lines of the banner and
    runs [cleanup], which runs the exit callback of the session context
    and then the one of the stdio transport, on the world as the read of
    the line left it; [main] ends with an empty exit stack, no query
    processed, and returns unless a callback left an exception
    pending. *)
Theorem quit_line_ends_loop :
  forall (W : Type) (o : oracles W) (line : string),
    Sentinel.is_quit_line line ->
    (forall (n : nat) (s : state W) (w : W),
        input_ o (PyStr.nl ++ "Query: ") (world s) = (Return line, w) ->
        Client.while_true o (S n) s
        = Some (Return tt,
                {| world := w; trace := trace s; self := self s |}))
    /\ (forall (n : nat) (argv : list string) (s s1 s2 : state W) (w : W),
          2 <= length argv ->
          Client.MCPClient_init o s = Some (Return tt, s1) ->
          Client.connect_to_server o (nth 1 argv EmptyString) s1
          = Some (Return tt, s2) ->
          input_ o (PyStr.nl ++ "Query: ") (world s2) = (Return line, w) ->
          let path := nth 1 argv EmptyString in
          let params :=
            {| command := if PyStr.endswith path ".py" then "python"
                          else "node";
               args := [path];
               env := None |} in
          let released :=
            ReleaseSpec.release_all o
              [SessionContext; StdioTransport params] None w in
          let new :=
            [ EvPrint [PyStr (PyStr.nl ++ "MCP Client Started!")];
              EvPrint [PyStr "Type your queries or 'quit' to exit."];
              EvCleanup;
              EvRelease SessionContext;
              EvRelease (StdioTransport params) ] in
          Client.main o (S n) argv s
          = Some (match fst released with
                  | Some e => Raise e
                  | None => Return tt
                  end,
                  {| world := snd released;
                     trace := (trace s2 ++ new)%list;
                     self := {| session := Some tt;
                                exit_stack := [];
                                llm := llm (self s1) |} |})
          /\ Trace.queries new = []).
Proof.
  intros W o line Hquit.
  assert (Hloop : forall (n : nat) (s : state W) (w : W),
             input_ o (PyStr.nl ++ "Query: ") (world s) = (Return line, w) ->
             Client.while_true o (S n) s
             = Some (Return tt,
                     {| world := w; trace := trace s; self := self s |})).
  { intros n s w Hin. cbn [Client.while_true]. unfold bind at 1.
    now rewrite (LoopFacts.loop_turn_quit o line s w Hquit Hin). }
  split; [exact Hloop|].
  intros n argv s s1 s2 w Hlen Hinit Hconn Hin path params released new.
  destruct (SessionFacts.MCPClient_init_spec o _ _ _ Hinit) as (_ & Hfresh).
  specialize (Hfresh tt eq_refl).
  destruct (LoopFacts.connect_success o _ _ _ Hconn)
    as (Hstack & Hsession & Hllm).
  rewrite Hfresh in Hstack. cbn [exit_stack Client.fresh_client] in Hstack.
  split; [|reflexivity].
  unfold Client.main. unfold bind at 1.
  assert (Hlt : (length argv <? 2)%nat = false) by (apply Nat.ltb_ge; lia).
  rewrite Hlt. unfold ret at 1. unfold bind at 1. rewrite Hinit.
  unfold try_finally. unfold bind at 1. rewrite Hconn.
  unfold Client.chat_loop, print. unfold bind at 1, emit at 1.
  unfold bind at 1, emit at 1. cbn [world trace self].
  match goal with
  | |- context [Client.while_true o (S n) ?s3] =>
      rewrite (Hloop n s3 w Hin)
  end.
  cbn [world trace self].
  rewrite CleanupFacts.cleanup_release_all.
  cbn [world trace self]. rewrite Hstack, Hsession, Hllm. cbn [map].
  repeat rewrite <- app_assoc. cbn [app].
  fold path. fold params. fold released.
  destruct (fst released); reflexivity.
Qed.

Lemma quit_line_ends_loop_witness :
  Sentinel.is_quit_line "quit"
  /\ Client.main (Ledger.oracles_of Ledger.sound) 1
       ["client.py"; "server.py"] Ledger.start
     = Some (Return tt,
             {| world :=
                  (world Ledger.connected
                   ++ [ Ledger.ReadLine;
                        Ledger.Exited SessionContext;
                        Ledger.Exited
                          (StdioTransport Script.python_params) ])%list;
                trace :=
                  (trace Ledger.connected
                   ++ [ EvPrint [PyStr (PyStr.nl ++ "MCP Client Started!")];
                        EvPrint
                          [PyStr "Type your queries or 'quit' to exit."];
                        EvCleanup;
                        EvRelease SessionContext;
                        EvRelease
                          (StdioTransport Script.python_params) ])%list;
                self := {| session := Some tt;
                           exit_stack := [];
                           llm := Some Ledger.claude_model |} |}).
Proof.
  assert (Hq : Sentinel.is_quit_line "quit").
  { exists "", "quit", "". repeat split.
    exists "q"%char, "u"%char, "i"%char, "t"%char.
    unfold Sentinel.either. repeat split; auto. }
  split; [exact Hq|].
  assert (Hinit :
    Client.MCPClient_init (Ledger.oracles_of Ledger.sound) Ledger.start
    = Some (Return tt, Ledger.built)) by (vm_compute; reflexivity).
  assert (Hconn :
    Client.connect_to_server (Ledger.oracles_of Ledger.sound)
      (nth 1 ["client.py"; "server.py"] EmptyString) Ledger.built
    = Some (Return tt, Ledger.connected)) by (vm_compute; reflexivity).
  assert (Hin :
    input_ (Ledger.oracles_of Ledger.sound) (PyStr.nl ++ "Query: ")
      (world Ledger.connected)
    = (Return "quit", (world Ledger.connected ++ [Ledger.ReadLine])%list))
    by reflexivity.
  rewrite (proj1 (proj2 (quit_line_ends_loop Ledger.W
                           (Ledger.oracles_of Ledger.sound) "quit" Hq)
                    0 ["client.py"; "server.py"] Ledger.start Ledger.built
                    Ledger.connected
                    (world Ledger.connected ++ [Ledger.ReadLine])%list
                    (le_n 2) Hinit Hconn Hin)).
  vm_compute. reflexivity.
Defined.

(** C1, as the code has it.  When reading the query or processing it
    raises an exception that is an instance of [Exception], the turn of
    the loop catches it, prints one line, the text of the exception after
    the prefix "Error: ", and the loop goes on to read the next line. *)
Theorem loop_catches_Exception :
  forall (W : Type) (o : oracles W) (e : exn) (n : nat) (s s1 : state W),
    is_Exception e = true ->
    (exists w,
        input_ o (PyStr.nl ++ "Query: ") (world s) = (Raise e, w)
        /\ s1 = {| world := w; trace := trace s; self := self s |})
    \/ (exists line w,
          input_ o (PyStr.nl ++ "Query: ") (world s) = (Return line, w)
          /\ String.eqb (PyStr.lower (PyStr.strip line)) "quit" = false
          /\ Client.process_query o (PyStr.strip line)
               {| world := w; trace := trace s; self := self s |}
             = Some (Raise e, s1)) ->
    let reported :=
      {| world := world s1;
         trace := (trace s1
                   ++ [EvPrint [PyStr (PyStr.nl ++ "Error: " ++ str_exn e)]])
                  %list;
         self := self s1 |} in
    Client.loop_turn o s = Some (Return Client.Continue, reported)
    /\ Client.while_true o (S n) s = Client.while_true o n reported.
Proof.
  intros W o e n s s1 Hexc Hraised reported.
  assert (Hcycle : Client.query_cycle o s = Some (Raise e, s1)).
  { unfold Client.query_cycle, bind, call.
    destruct Hraised as [(w & Hin & ->) | (line & w & Hin & Hnq & Hproc)];
      rewrite Hin; [reflexivity|].
    rewrite Hnq. unfold bind. now rewrite Hproc. }
  assert (Hturn : Client.loop_turn o s = Some (Return Client.Continue, reported)).
  { unfold Client.loop_turn, try_except. rewrite Hcycle, Hexc.
    reflexivity. }
  split; [exact Hturn|].
  cbn [Client.while_true]. unfold bind at 1. now rewrite Hturn.
Qed.

Lemma loop_catches_Exception_witness :
  Client.loop_turn (Script.oracles_of Script.friendly)
    (Script.start [Raise EOFError; Return "quit"])
  = Some (Return Client.Continue,
          {| world := [Return "quit"];
             trace := [EvPrint [PyStr (PyStr.nl ++ "Error: "
                                       ++ "EOF when reading a line")]];
             self := Script.blank |})
  /\ Client.while_true (Script.oracles_of Script.friendly) 2
       (Script.start [Raise EOFError; Return "quit"])
     = Client.while_true (Script.oracles_of Script.friendly) 1
         {| world := [Return "quit"];
            trace := [EvPrint [PyStr (PyStr.nl ++ "Error: "
                                      ++ "EOF when reading a line")]];
            self := Script.blank |}.
Proof.
  apply (loop_catches_Exception Script.W (Script.oracles_of Script.friendly)
           EOFError 1 (Script.start [Raise EOFError; Return "quit"])
           {| world := [Return "quit"]; trace := []; self := Script.blank |}
           eq_refl).
  left. exists [Return "quit"]. split; reflexivity.
Defined.

(** C1 as stated fails: a [KeyboardInterrupt] raised while the query is
    read is not an [Exception]; it leaves the loop, no error line is
    printed, and the next line is never read. *)
Lemma chat_loop_KeyboardInterrupt_counterexample :
  exists s',
    Client.chat_loop (Script.oracles_of Script.friendly) 5
      (Script.start [Raise KeyboardInterrupt; Return "hello"])
    = Some (Raise KeyboardInterrupt, s')
    /\ world s' = [Return "hello"]
    /\ trace s' = [ EvPrint [PyStr (PyStr.nl ++ "MCP Client Started!")];
                    EvPrint [PyStr "Type your queries or 'quit' to exit."] ]
    /\ (forall text,
          ~ In (EvPrint [PyStr (PyStr.nl ++ "Error: " ++ text)]) (trace s')).
Proof.
  eexists. split; [vm_compute; reflexivity|].
  split; [reflexivity|]. split; [reflexivity|].
  intros text [H | [H | []]]; vm_compute in H; discriminate.
Qed.

(** ** The agent loop *)

Module AgentFacts.

Import Client.

Lemma thoughts_app (a b : list event) :
  Trace.thoughts (a ++ b) = Trace.thoughts a + Trace.thoughts b.
Proof. unfold Trace.thoughts. now rewrite filter_app, length_app. Qed.

Section WithWorld.

Context {W : Type} (o : oracles W).

(** An Acting step comes to an end and thinks nothing. *)
Lemma act_total (tools : list Tool) (name tool_input : string)
  (s : state W) :
  exists r s' new,
    act o tools name tool_input s = Some (r, s')
    /\ trace s' = (trace s ++ new)%list
    /\ Trace.thoughts new = 0.
Proof.
  unfold act. destruct (has_tool tools name).
  - unfold_monad. cbn [world trace self].
    destruct (tool_invoke o name tool_input (world s)) as [[obs|e] w].
    + eexists _, _, [_]. repeat split.
    + destruct e as [| | |ename detail| | |];
        try (eexists _, _, [_]; repeat split; fail).
      match goal with
      | |- context [match ?h with Some _ => _ | None => _ end] =>
          destruct h as [h'|] eqn:Eh
      end.
      * assert (Hh : h' = ret ("ToolInvocationError: " ++ detail)).
        { revert Eh.
          repeat (destruct ename as [|[[] [] [] [] [] [] [] []] ename];
                  try discriminate).
          now intros [= <-]. }
        subst h'. eexists _, _, [_]. repeat split.
      * eexists _, _, [_]. repeat split.
  - exists (Return ("UnknownToolError: " ++ name)), s, [].
    rewrite app_nil_r. repeat split.
Qed.

(** The loop comes to an end within [remaining] Thinking steps. *)
Lemma agent_loop_bounded (remaining : nat) (tools : list Tool)
  (system_prompt query : string) :
  forall (steps : scratchpad) (s : state W),
  exists r s' new,
    agent_loop o remaining tools system_prompt query steps s
    = Some (r, s')
    /\ trace s' = (trace s ++ new)%list
    /\ Trace.thoughts new <= remaining.
Proof.
  induction remaining as [|n IH]; intros steps s.
  - eexists _, s, []. rewrite app_nil_r. repeat split. cbn. lia.
  - cbn [agent_loop]. unfold bind at 1, emit at 1.
    unfold bind at 1, call at 1. cbn [world trace self].
    destruct (llm_plan o system_prompt query steps (world s))
      as [[[name tool_input|output|]|e] w].
    + unfold bind at 1.
      match goal with
      | |- context [act o tools name tool_input ?s1] =>
          destruct (act_total tools name tool_input s1)
            as (ra & sa & newa & -> & Htra & Hza)
      end.
      cbn [trace] in Htra. destruct ra as [obs|e].
      * destruct (IH (steps ++ [(name, tool_input, obs)])%list sa)
          as (r & s' & new & -> & Htr & Hle).
        exists r, s', ([EvThink] ++ newa ++ new)%list.
        split; [reflexivity|]. split.
        -- rewrite Htr, Htra, <- !app_assoc. reflexivity.
        -- rewrite !thoughts_app, Hza. cbn. lia.
      * exists (Raise e), sa, ([EvThink] ++ newa)%list.
        split; [reflexivity|]. split.
        -- rewrite Htra, <- !app_assoc. reflexivity.
        -- rewrite thoughts_app, Hza. cbn. lia.
    + eexists _, _, [EvThink]. repeat split. cbn. lia.
    + eexists _, _, [EvThink]. repeat split. cbn. lia.
    + eexists _, _, [EvThink]. repeat split. cbn. lia.
Qed.

(** With a model that asks for a tool at every step, and tools that
    answer, the loop stops at the cap. *)
Lemma agent_loop_restless (remaining : nat) (tools : list Tool)
  (system_prompt query : string) :
  (forall steps w, exists name tool_input w',
      llm_plan o system_prompt query steps w
      = (Return (ToolCall name tool_input), w')) ->
  (forall name tool_input w, exists obs w',
      tool_invoke o name tool_input w = (Return obs, w')) ->
  forall (steps : scratchpad) (s : state W),
  exists s' new,
    agent_loop o remaining tools system_prompt query steps s
    = Some (Return (OutStr "Agent stopped due to max iterations."), s')
    /\ trace s' = (trace s ++ new)%list
    /\ Trace.thoughts new = remaining.
Proof.
  intros Hplan Htool.
  induction remaining as [|n IH]; intros steps s.
  - exists s, []. rewrite app_nil_r. repeat split.
  - cbn [agent_loop]. unfold bind at 1, emit at 1.
    unfold bind at 1, call at 1. cbn [world trace self].
    destruct (Hplan steps (world s)) as (name & tool_input & w & ->).
    unfold bind at 1.
    assert (Hact : exists obs sa newa,
               act o tools name tool_input
                 {| world := w; trace := (trace s ++ [EvThink])%list;
                    self := self s |}
               = Some (Return obs, sa)
               /\ trace sa = ((trace s ++ [EvThink]) ++ newa)%list
               /\ Trace.thoughts newa = 0).
    { unfold act. destruct (has_tool tools name).
      - unfold_monad. cbn [world trace self].
        destruct (Htool name tool_input w) as (obs & w' & ->).
        eexists _, _, [_]. repeat split.
      - eexists _, _, []. rewrite app_nil_r. repeat split. }
    destruct Hact as (obs & sa & newa & -> & Htra & Hza).
    destruct (IH (steps ++ [(name, tool_input, obs)])%list sa)
      as (s' & new & -> & Htr & Hn).
    exists s', ([EvThink] ++ newa ++ new)%list.
    split; [reflexivity|]. split.
    + rewrite Htr, Htra, <- !app_assoc. reflexivity.
    + rewrite !thoughts_app, Hza, Hn. reflexivity.
Qed.

End WithWorld.

End AgentFacts.

(** C8.  The executor that [process_query] builds has the default cap of
    15 iterations.  For every query and every model, its run comes to an
    end after at most 15 Thinking steps; with a model that proposes a tool
    call at every Thinking step it stops after exactly 15 of them. *)
Theorem agent_executor_terminates :
  forall (W : Type) (o : oracles W) (tools : list Tool)
         (system_prompt query : string) (s : state W),
    Client.max_iterations (Client.new_AgentExecutor tools true) = 15
    /\ (exists r s' new,
          Client.AgentExecutor_ainvoke o (Client.new_AgentExecutor tools true)
            system_prompt query s
          = Some (r, s')
          /\ trace s' = (trace s ++ new)%list
          /\ Trace.thoughts new <= 15)
    /\ ((forall steps w, exists name tool_input w',
            llm_plan o system_prompt query steps w
            = (Return (ToolCall name tool_input), w')) ->
        (forall name tool_input w, exists obs w',
            tool_invoke o name tool_input w = (Return obs, w')) ->
        exists s' new,
          Client.AgentExecutor_ainvoke o (Client.new_AgentExecutor tools true)
            system_prompt query s
          = Some (Return (OutStr "Agent stopped due to max iterations."), s')
          /\ trace s' = (trace s ++ new)%list
          /\ Trace.thoughts new = 15).
Proof.
  intros W o tools system_prompt query s.
  split; [reflexivity|]. split.
  - apply (AgentFacts.agent_loop_bounded o 15).
  - intros Hplan Htool.
    apply (AgentFacts.agent_loop_restless o 15 tools system_prompt query
             Hplan Htool).
Qed.

Lemma agent_executor_terminates_witness :
  exists s' new,
    Client.AgentExecutor_ainvoke (Script.oracles_of Script.restless)
      (Client.new_AgentExecutor [Script.echo] true) "tools" "question"
      (Script.start [])
    = Some (Return (OutStr "Agent stopped due to max iterations."), s')
    /\ trace s' = (trace (Script.start []) ++ new)%list
    /\ Trace.thoughts new = 15.
Proof.
  apply (proj2 (proj2 (agent_executor_terminates Script.W
                         (Script.oracles_of Script.restless) [Script.echo]
                         "tools" "question" (Script.start [])))).
  - intros steps w. exists "echo", "hi", w. reflexivity.
  - intros name tool_input w. exists tool_input, w. reflexivity.
Defined.

(** * Further properties of the code *)

(** ** String operations the client relies on *)

Module PyStrMore.

Import PyStr.

Lemma split_not_nil (sep : ascii) (s : string) : split sep s <> [].
Proof.
  destruct s as [|c s]; simpl; [discriminate|].
  destruct (Ascii.eqb c sep); [discriminate|].
  destruct (split sep s); discriminate.
Qed.

Lemma join_cons_char (sep : string) (c : ascii) (p : string)
  (ps : list string) :
  join sep (String c p :: ps) = String c (join sep (p :: ps)).
Proof. destruct ps; reflexivity. Qed.

Lemma endswith_iff (s suffix : string) :
  endswith s suffix = true <-> exists before, s = before ++ suffix.
Proof.
  induction s as [|c s IH]; cbn [endswith].
  - rewrite orb_false_r. split.
    + intros H. apply String.eqb_eq in H. subst. now exists "".
    + intros [before H]. destruct before; simpl in H.
      * subst. reflexivity.
      * discriminate.
  - rewrite orb_true_iff, IH. split.
    + intros [H | [before ->]].
      * apply String.eqb_eq in H. exists "". now rewrite H.
      * now exists (String c before).
    + intros [[|c' before] H]; simpl in H.
      * left. subst. apply String.eqb_refl.
      * right. injection H as -> ->. now exists before.
Qed.

Lemma lstrip_decompose (s : string) :
  exists before,
    s = before ++ lstrip s /\ Sentinel.all_space before = true.
Proof.
  induction s as [|c s (before & Hs & Hb)]; simpl.
  - now exists "".
  - destruct (isspace c) eqn:Hc.
    + exists (String c before). simpl. rewrite Hc, Hb. now rewrite <- Hs.
    + now exists "".
Qed.

Lemma rstrip_decompose (s : string) :
  exists after,
    s = rstrip s ++ after /\ Sentinel.all_space after = true.
Proof.
  induction s as [|c s (after & Hs & Ha)]; simpl.
  - now exists "".
  - destruct (isspace c) eqn:Hc; simpl.
    + destruct (String.eqb (rstrip s) "") eqn:He.
      * apply String.eqb_eq in He. rewrite He in Hs. simpl in Hs.
        exists (String c s). simpl. rewrite Hc, Hs, Ha. now rewrite <- Hs.
      * exists after. simpl. now rewrite <- Hs.
    + exists after. simpl. now rewrite <- Hs.
Qed.

Lemma strip_decompose (s : string) :
  exists before after,
    s = before ++ strip s ++ after
    /\ Sentinel.all_space before = true
    /\ Sentinel.all_space after = true.
Proof.
  destruct (lstrip_decompose s) as (before & Hs & Hb).
  destruct (rstrip_decompose (lstrip s)) as (after & Hl & Ha).
  exists before, after. unfold strip. now rewrite <- Hl.
Qed.

Lemma lstrip_all_space (s : string) :
  Sentinel.all_space s = true -> lstrip s = "".
Proof.
  induction s as [|c s IH]; simpl; [reflexivity|].
  intros H. apply andb_true_iff in H as [-> Hs]. now apply IH.
Qed.

Lemma strip_all_space (s : string) :
  Sentinel.all_space s = true -> strip s = "".
Proof. intros H. unfold strip. now rewrite (lstrip_all_space s H). Qed.

Ltac all_ascii c :=
  destruct c as [[] [] [] [] [] [] [] []].

Lemma lower_char_q (c : ascii) :
  lower_char c = "q"%char -> Sentinel.either "q" "Q" c.
Proof.
  unfold Sentinel.either. all_ascii c; vm_compute; intros H;
    first [discriminate H | now left | now right].
Qed.

Lemma lower_char_u (c : ascii) :
  lower_char c = "u"%char -> Sentinel.either "u" "U" c.
Proof.
  unfold Sentinel.either. all_ascii c; vm_compute; intros H;
    first [discriminate H | now left | now right].
Qed.

Lemma lower_char_i (c : ascii) :
  lower_char c = "i"%char -> Sentinel.either "i" "I" c.
Proof.
  unfold Sentinel.either. all_ascii c; vm_compute; intros H;
    first [discriminate H | now left | now right].
Qed.

Lemma lower_char_t (c : ascii) :
  lower_char c = "t"%char -> Sentinel.either "t" "T" c.
Proof.
  unfold Sentinel.either. all_ascii c; vm_compute; intros H;
    first [discriminate H | now left | now right].
Qed.

Lemma lower_quit_inv (s : string) :
  lower s = "quit" -> Sentinel.quit_token s.
Proof.
  destruct s as [|q [|u [|i [|t [|x s]]]]]; simpl; try discriminate.
  intros H. injection H as Hq Hu Hi Ht.
  exists q, u, i, t. split; [reflexivity|].
  repeat split;
    [ now apply lower_char_q | now apply lower_char_u
    | now apply lower_char_i | now apply lower_char_t ].
Qed.

End PyStrMore.

(** X1.  The last line of [process_query] splits the answer at newlines
    and joins the pieces with newlines again: this gives the answer back
    unchanged, for every text. *)
Theorem join_split_newline :
  forall text : string,
    PyStr.join PyStr.nl (PyStr.split (ascii_of_nat 10) text) = text.
Proof.
  induction text as [|c text IH]; [reflexivity|].
  cbn [PyStr.split].
  destruct (Ascii.eqb c (ascii_of_nat 10)) eqn:Hc.
  - apply Ascii.eqb_eq in Hc. subst c.
    destruct (PyStr.split (ascii_of_nat 10) text) as [|p ps] eqn:Hs.
    + now elim (PyStrMore.split_not_nil (ascii_of_nat 10) text).
    + change (PyStr.join PyStr.nl ("" :: p :: ps))
        with (PyStr.nl ++ PyStr.join PyStr.nl (p :: ps)).
      now rewrite IH.
  - destruct (PyStr.split (ascii_of_nat 10) text) as [|p ps] eqn:Hs.
    + now elim (PyStrMore.split_not_nil (ascii_of_nat 10) text).
    + rewrite PyStrMore.join_cons_char. now rewrite IH.
Qed.

(** ** More on the read loop *)

(** X2.  A turn of the read loop ends the loop exactly on a quit line: for
    every line that [input] returns, the turn breaks if and only if the
    line is the token quit, in any mix of cases, with only whitespace
    around it.  No other line, and no answer or failure of the agent,
    ends the loop by a break. *)
Theorem loop_breaks_only_on_quit :
  forall (W : Type) (o : oracles W) (line : string) (s : state W) (w : W),
    input_ o (PyStr.nl ++ "Query: ") (world s) = (Return line, w) ->
    ((exists s', Client.loop_turn o s = Some (Return Client.Break, s'))
     <-> Sentinel.is_quit_line line).
Proof.
  intros W o line s w Hin. split.
  - intros [s' H].
    destruct (String.eqb (PyStr.lower (PyStr.strip line)) "quit") eqn:E.
    + apply String.eqb_eq in E. apply PyStrMore.lower_quit_inv in E.
      destruct (PyStrMore.strip_decompose line)
        as (before & after & Hl & Hb & Ha).
      exists before, (PyStr.strip line), after. auto.
    + exfalso. revert H.
      unfold Client.loop_turn, Client.query_cycle, try_except, bind, call.
      rewrite Hin, E.
      destruct (Client.process_query o (PyStr.strip line) _)
        as [[[response|e] s1]|]; cbn; try discriminate.
      destruct (is_Exception e); cbn; discriminate.
  - intros Hq. eexists. exact (LoopFacts.loop_turn_quit o line s w Hq Hin).
Qed.

Lemma loop_breaks_only_on_quit_witness :
  (exists s',
      Client.loop_turn (Script.oracles_of Script.friendly)
        (Script.start [Return "quit now"])
      = Some (Return Client.Break, s'))
  <-> Sentinel.is_quit_line "quit now".
Proof.
  apply (loop_breaks_only_on_quit Script.W (Script.oracles_of Script.friendly)
           "quit now" (Script.start [Return "quit now"]) []).
  reflexivity.
Defined.

(** X3.  The read loop has no way out on end of input: when [input] keeps
    raising an [Exception] without consuming anything, as it does with
    [EOFError] once standard input is exhausted, every turn catches it and
    the loop never comes to an end, whatever the fuel. *)
Theorem loop_spins_when_input_keeps_failing :
  forall (W : Type) (o : oracles W) (w : W) (e : exn),
    is_Exception e = true ->
    input_ o (PyStr.nl ++ "Query: ") w = (Raise e, w) ->
    forall (fuel : nat) (s : state W),
      world s = w ->
      Client.while_true o fuel s = None
      /\ Client.chat_loop o fuel s = None.
Proof.
  intros W o w e Hexc Hin.
  assert (Hloop : forall fuel s, world s = w ->
                                 Client.while_true o fuel s = None).
  { induction fuel as [|n IH]; intros s Hw; [reflexivity|].
    cbn [Client.while_true]. unfold bind at 1.
    unfold Client.loop_turn, try_except, Client.query_cycle.
    unfold bind at 1, call at 1. rewrite Hw, Hin, Hexc.
    unfold bind at 1, print, emit. cbn [world trace self ret].
    apply IH. reflexivity. }
  intros fuel s Hw. split; [now apply Hloop|].
  unfold Client.chat_loop, print. unfold bind at 1, emit at 1.
  unfold bind at 1, emit at 1. apply Hloop. exact Hw.
Qed.

Lemma loop_spins_when_input_keeps_failing_witness :
  Client.while_true (Script.oracles_of Script.friendly) 100 (Script.start [])
  = None
  /\ Client.chat_loop (Script.oracles_of Script.friendly) 100
       (Script.start [])
     = None.
Proof.
  apply (loop_spins_when_input_keeps_failing Script.W
           (Script.oracles_of Script.friendly) [] EOFError eq_refl eq_refl
           100 (Script.start []) eq_refl).
Defined.

(** X4.  A blank line is not skipped: when the line read is empty or all
    whitespace, the turn hands the empty string to [process_query] as the
    query and goes on as for any other query. *)
Theorem blank_line_is_processed :
  forall (W : Type) (o : oracles W) (line : string) (s : state W) (w : W),
    Sentinel.all_space line = true ->
    input_ o (PyStr.nl ++ "Query: ") (world s) = (Return line, w) ->
    Client.query_cycle o s
    = (response <- Client.process_query o "" ;;
       print [PyStr (PyStr.nl ++ response)] ;;;
       ret Client.Continue)
        {| world := w; trace := trace s; self := self s |}.
Proof.
  intros W o line s w Hblank Hin.
  unfold Client.query_cycle. unfold bind at 1, call at 1.
  rewrite Hin. now rewrite (PyStrMore.strip_all_space line Hblank).
Qed.

Lemma blank_line_is_processed_witness :
  Client.query_cycle (Script.oracles_of Script.friendly)
    (Script.start [Return "   "])
  = (response <- Client.process_query (Script.oracles_of Script.friendly) "" ;;
     print [PyStr (PyStr.nl ++ response)] ;;;
     ret Client.Continue)
      {| world := []; trace := []; self := Script.blank |}.
Proof.
  apply (blank_line_is_processed Script.W (Script.oracles_of Script.friendly)
           "   " (Script.start [Return "   "]) []); reflexivity.
Defined.

(** ** More on the validators *)

(** X5.  For an identifier in which one of the five family names of the
    access check occurs, one check makes one request through
    [invoke_model], with the body of the first such family, in the world
    as it is, and answers by what the provider did: true exactly when the
    request came back, false exactly when the provider raised a client
    error with the code AccessDeniedException, and any other failure is
    raised again as it is.  The world after the check is the one the
    provider left. *)
Theorem validate_model_access_verdict :
  forall (W : Type) (o : oracles W) (model_id : string) (request : json)
         (s : state W) (r : outcome unit) (w : W),
    AccessSpec.request_for model_id = Some request ->
    invoke_model o model_id request (world s) = (r, w) ->
    Helpers.validate_model_access o model_id s
    = Some (AccessSpec.verdict r,
            {| world := w;
               trace := (trace s
                         ++ [EvInvokeModel model_id request
                               match r with
                               | Return _ => None
                               | Raise e => Some e
                               end])%list;
               self := self s |})
    /\ (AccessSpec.verdict r = Return true <-> r = Return tt)
    /\ (AccessSpec.verdict r = Return false <->
        exists msg, r = Raise (ClientError "AccessDeniedException" msg))
    /\ (forall e, AccessSpec.verdict r = Raise e <->
                  r = Raise e /\ AccessSpec.refused r = false).
Proof.
  intros W o model_id request s r w Hfor Hinv.
  rewrite AccessFacts.request_for_eq in Hfor. split.
  - rewrite (AccessFacts.validate_model_access_oracle o model_id request s
               Hfor).
    now rewrite Hinv.
  - destruct r as [[]|e]; cbn [AccessSpec.verdict].
    + split; [tauto|]. split.
      * split; [discriminate | intros [msg H]; discriminate].
      * intros e. split; [discriminate | intros [H _]; discriminate].
    + destruct (AccessSpec.refused (Raise e)) eqn:Href.
      * split; [split; discriminate|]. split.
        -- split; [intros _ | reflexivity].
           destruct e; try discriminate. cbn in Href.
           apply String.eqb_eq in Href. subst code. now exists msg.
        -- intros e'. split; [discriminate|].
           intros [_ H]. discriminate.
      * split; [split; discriminate|]. split.
        -- split; [discriminate|]. intros [msg H]. injection H as ->.
           discriminate.
        -- intros e'. split.
           ++ intros H. injection H as <-. auto.
           ++ intros [H _]. injection H as <-. reflexivity.
Qed.

Lemma validate_model_access_verdict_witness :
  Helpers.validate_model_access (Ledger.oracles_of Ledger.refusing)
    "cohere.command-text-v14" Ledger.start
  = Some (Return false,
          {| world := [ Ledger.AskedModel "cohere.command-text-v14"
                          Helpers.command_request ];
             trace := [ EvInvokeModel "cohere.command-text-v14"
                          Helpers.command_request
                          (Some (ClientError "AccessDeniedException"
                                   "denied")) ];
             self := Script.blank |}).
Proof.
  apply (proj1 (validate_model_access_verdict Ledger.W
                  (Ledger.oracles_of Ledger.refusing)
                  "cohere.command-text-v14" Helpers.command_request
                  Ledger.start
                  (Raise (ClientError "AccessDeniedException" "denied"))
                  [ Ledger.AskedModel "cohere.command-text-v14"
                      Helpers.command_request ]
                  eq_refl eq_refl)).
Defined.

(** X6.  The parameter validator never answers false: for every model
    identifier and every parameter mapping it returns true or raises a
    ValueError. *)
Theorem validate_inference_parameters_true_or_raises :
  forall (V : Type) (model_id : string) (inference_parameters : dict V),
    Helpers.validate_inference_parameters model_id inference_parameters
    = Return true
    \/ exists msg,
        Helpers.validate_inference_parameters model_id inference_parameters
        = Raise (ValueError msg).
Proof.
  intros V model_id params. unfold Helpers.validate_inference_parameters.
  destruct (Helpers.inference_family model_id) as [f|];
    [|right; now eexists].
  induction (keys params) as [|k ks IH]; simpl; [now left|].
  destruct (dict_mem k (Helpers.inf_param f)); simpl;
    [exact IH | right; now eexists].
Qed.

(** X7.  Validation goes key by key: the parameters of two mappings put
    together are accepted for a model exactly when each mapping is
    accepted for it. *)
Theorem validate_inference_parameters_app :
  forall (V : Type) (model_id : string) (p1 p2 : dict V),
    Helpers.validate_inference_parameters model_id (p1 ++ p2)%list
    = Return true
    <-> Helpers.validate_inference_parameters model_id p1 = Return true
        /\ Helpers.validate_inference_parameters model_id p2 = Return true.
Proof.
  intros V model_id p1 p2. unfold Helpers.validate_inference_parameters.
  destruct (Helpers.inference_family model_id) as [f|].
  - rewrite !HelpersFacts.check_keys_ok. unfold keys. rewrite map_app.
    split.
    + intros H. split; intros key Hk; apply H, in_or_app; auto.
    + intros [H1 H2] key Hk. apply in_app_or in Hk as [Hk|Hk]; auto.
  - split; [discriminate | intros [H _]; discriminate].
Qed.

(** X8.  The temperature parameter alone is accepted for every identifier
    the parameter validator takes, except those of the stability family,
    whose table has no temperature. *)
Theorem temperature_accepted_except_stability :
  forall (V : Type) (model_id : string) (value : V),
    Helpers.validate_inference_parameters model_id [("temperature", value)]
    = Return true
    <-> exists f, Helpers.inference_family model_id = Some f
                  /\ f <> Helpers.Stability.
Proof.
  intros V model_id value. unfold Helpers.validate_inference_parameters.
  destruct (Helpers.inference_family model_id) as [f|].
  - destruct f; cbn; split;
      try (intros _; eexists; split; [reflexivity | discriminate]);
      try reflexivity; try discriminate.
    intros (f & Hf & Hne). injection Hf as <-. now elim Hne.
  - split; [discriminate | intros (f & Hf & _); discriminate].
Qed.

(** X9.  The two validators do not look for the families in the same
    order.  An identifier that contains both "mixtral" and "claude", and
    neither "titan" nor "ai21", is checked for access with the mixtral
    request, while its parameters are validated against the claude
    table. *)
Theorem validators_disagree_on_family :
  forall model_id : string,
    PyStr.contains "mixtral" model_id = true ->
    PyStr.contains "claude" model_id = true ->
    PyStr.contains "titan" model_id = false ->
    PyStr.contains "ai21" model_id = false ->
    Helpers.access_request model_id = Some Helpers.mixtral_request
    /\ Helpers.inference_family model_id = Some Helpers.Claude
    /\ Helpers.validate_inference_parameters model_id
         [("top_p", JFloat (1 # 2))]
       = Raise (ValueError (Helpers.invalid_parameter_msg "top_p" model_id)).
Proof.
  intros model_id Hm Hc Ht Ha.
  assert (Hf : Helpers.inference_family model_id = Some Helpers.Claude).
  { unfold Helpers.inference_family. now rewrite Ht, Ha, Hc. }
  repeat split.
  - unfold Helpers.access_request. now rewrite Ht, Hm.
  - exact Hf.
  - unfold Helpers.validate_inference_parameters. now rewrite Hf.
Qed.

Lemma validators_disagree_on_family_witness :
  Helpers.access_request "mixtral-claude-v1" = Some Helpers.mixtral_request
  /\ Helpers.inference_family "mixtral-claude-v1" = Some Helpers.Claude
  /\ Helpers.validate_inference_parameters "mixtral-claude-v1"
       [("top_p", JFloat (1 # 2))]
     = Raise (ValueError
                (Helpers.invalid_parameter_msg "top_p" "mixtral-claude-v1")).
Proof.
  apply (validators_disagree_on_family "mixtral-claude-v1"); reflexivity.
Defined.

(** ** Startup and connection *)

Module StartupFacts.

Import Client.

Lemma append_one_neq {A} (l : list A) (x : A) (rest : list A) :
  (l ++ x :: rest)%list <> l.
Proof.
  intros H. apply (f_equal (@length A)) in H.
  rewrite length_app in H. simpl in H. lia.
Qed.

Section WithWorld.

Context {W : Type} (o : oracles W).

(** With an accepted suffix, connecting is launching python or node. *)
Lemma connect_is_launch (path : string) (s : state W) :
  PyStr.endswith path ".py" || PyStr.endswith path ".js" = true ->
  exists command,
    (command = "python" \/ command = "node")
    /\ connect_to_server o path s = ConnectSpec.launch o command path s.
Proof.
  intros Hsuffix.
  exists (if PyStr.endswith path ".py" then "python" else "node").
  split; [destruct (PyStr.endswith path ".py"); auto|].
  unfold connect_to_server. rewrite Hsuffix. cbn [negb].
  unfold ConnectSpec.launch, ConnectSpec.session_steps,
    enter_async_context; unfold_monad;
    cbn [world trace self exit_stack session llm];
    repeat match goal with
           | |- context [match ?f with (_, _) => _ end] =>
               destruct f as [[?|?] ?];
               cbn [world trace self exit_stack session llm]
           end;
    unfold emit; cbn [world trace self];
    repeat rewrite <- app_assoc; cbn [app]; reflexivity.
Qed.

(** A launch always writes to the trace. *)
Lemma launch_trace (command path : string) (s s' : state W)
  (r : outcome unit) :
  ConnectSpec.launch o command path s = Some (r, s') ->
  exists ev rest, trace s' = (trace s ++ ev :: rest)%list.
Proof.
  unfold ConnectSpec.launch, ConnectSpec.session_steps.
  repeat match goal with
         | |- context [match ?f with (_, _) => _ end] =>
             destruct f as [[?|?] ?]
         end;
    intros H; injection H as <- <-; cbn [trace];
    repeat rewrite <- app_assoc; cbn [app]; now eexists _, _.
Qed.

End WithWorld.

End StartupFacts.

(** X10.  [connect_to_server] raises its ValueError and leaves the state
    as it was exactly when the path is neither some text followed by
    ".py" nor some text followed by ".js"; for every other path it asks
    the stdio client, in the world as it is, for a child process running
    "python" or "node" on that path, and goes on from what the stdio
    client answers. *)
Theorem connect_rejects_exactly_other_suffixes :
  forall (W : Type) (o : oracles W) (path : string) (s : state W),
    ((forall before, path <> before ++ ".py" /\ path <> before ++ ".js")
     <-> Client.connect_to_server o path s
         = Some (Raise (ValueError "Server script must be a .py or .js file"),
                 s))
    /\ ((exists before, path = before ++ ".py" \/ path = before ++ ".js") ->
        exists command,
          (command = "python" \/ command = "node")
          /\ Client.connect_to_server o path s
             = ConnectSpec.launch o command path s).
Proof.
  intros W o path s.
  destruct (PyStr.endswith path ".py" || PyStr.endswith path ".js")
    eqn:Hsuffix.
  - assert (Hex : exists before,
               path = before ++ ".py" \/ path = before ++ ".js").
    { apply orb_true_iff in Hsuffix as [H|H];
        apply PyStrMore.endswith_iff in H as [before H]; eauto. }
    destruct (StartupFacts.connect_is_launch o path s Hsuffix)
      as (command & Hcmd & Hlaunch).
    split.
    + split.
      * intros Hno. destruct Hex as [before [H|H]];
          now elim (Hno before).
      * intros Hraise. rewrite Hlaunch in Hraise.
        destruct (StartupFacts.launch_trace o _ _ _ _ _ Hraise)
          as (ev & rest & Htr).
        symmetry in Htr.
        now elim (StartupFacts.append_one_neq _ _ _ Htr).
    + intros _. now exists command.
  - apply orb_false_iff in Hsuffix as [Hpy Hjs]. split.
    + split.
      * intros _. unfold Client.connect_to_server. rewrite Hpy, Hjs.
        reflexivity.
      * intros _ before. split; intros ->.
        -- assert (PyStr.endswith (before ++ ".py") ".py" = true)
             by (apply PyStrMore.endswith_iff; now exists before).
           congruence.
        -- assert (PyStr.endswith (before ++ ".js") ".js" = true)
             by (apply PyStrMore.endswith_iff; now exists before).
           congruence.
    + intros [before [-> | ->]].
      * assert (PyStr.endswith (before ++ ".py") ".py" = true)
          by (apply PyStrMore.endswith_iff; now exists before).
        congruence.
      * assert (PyStr.endswith (before ++ ".js") ".js" = true)
          by (apply PyStrMore.endswith_iff; now exists before).
        congruence.
Qed.

(** X11.  [main] gives up before anything is set up in two cases.
    Without a script path it prints the usage line and exits with status
    1; no access check is made and no client is built.  When the
    constructor raises, the exception leaves [main] with the state as the
    constructor left it: the [try] block is never entered, so there is no
    connection attempt and no [cleanup]. *)
Theorem main_gives_up_early :
  forall (W : Type) (o : oracles W) (fuel : nat) (argv : list string)
         (s : state W),
    (length argv < 2 ->
     Client.main o fuel argv s
     = Some (Raise (SystemExit 1),
             {| world := world s;
                trace := (trace s
                          ++ [EvPrint
                                [PyStr "Usage: python client.py <path_to_server_script>"]])
                         %list;
                self := self s |}))
    /\ (2 <= length argv ->
        forall e s1,
          Client.MCPClient_init o s = Some (Raise e, s1) ->
          Client.main o fuel argv s = Some (Raise e, s1)
          /\ exists new,
               trace s1 = (trace s ++ new)%list
               /\ Trace.acquired new = []
               /\ Trace.cleanups new = 0).
Proof.
  intros W o fuel argv s. split.
  - intros Hlen. unfold Client.main.
    assert (Hlt : (length argv <? 2)%nat = true) by (apply Nat.ltb_lt; lia).
    rewrite Hlt. reflexivity.
  - intros Hlen e s1 Hinit. split.
    + unfold Client.main.
      assert (Hlt : (length argv <? 2)%nat = false)
        by (apply Nat.ltb_ge; lia).
      rewrite Hlt. unfold bind at 1, ret at 1. unfold bind at 1.
      now rewrite Hinit.
    + destruct (SessionFacts.MCPClient_init_spec o _ _ _ Hinit)
        as ((new & Htr & Hq) & _).
      destruct (Frame.quiet_projections new Hq) as (Ha & _ & Hc).
      now exists new.
Qed.

Lemma main_gives_up_early_witness :
  Client.main (Script.oracles_of Script.friendly) 3 ["client.py"]
    (Script.start [])
  = Some (Raise (SystemExit 1),
          {| world := [];
             trace := [EvPrint
                         [PyStr "Usage: python client.py <path_to_server_script>"]];
             self := Script.blank |}).
Proof.
  apply (proj1 (main_gives_up_early Script.W
                  (Script.oracles_of Script.friendly) 3 ["client.py"]
                  (Script.start []))).
  simpl. lia.
Defined.

(** ** Invariants of the session *)

(** X13.  The chat loop leaves the client object alone: however it ends,
    the session, the exit stack and the bound model are as they were, and
    the loop has acquired nothing, released nothing and run no cleanup,
    whatever the queries did. *)
Theorem chat_loop_keeps_client :
  forall (W : Type) (o : oracles W) (fuel : nat) (s s' : state W)
         (r : outcome unit),
    Client.chat_loop o fuel s = Some (r, s') ->
    self s' = self s
    /\ exists new,
         trace s' = (trace s ++ new)%list
         /\ Trace.acquired new = []
         /\ Trace.released new = []
         /\ Trace.cleanups new = 0.
Proof.
  intros W o fuel s s' r H.
  destruct (Frame.preserves_chat_loop o fuel _ _ _ H)
    as (Hself & new & Htr & Hq).
  split; [exact Hself|]. exists new. split; [exact Htr|].
  now apply Frame.quiet_projections.
Qed.

Lemma chat_loop_keeps_client_witness :
  exists r s',
    Client.chat_loop (Script.oracles_of Script.friendly) 3
      (Script.connected [Return "hello"; Return "quit"])
    = Some (r, s')
    /\ self s' = self (Script.connected [Return "hello"; Return "quit"])
    /\ exists new,
         trace s'
         = (trace (Script.connected [Return "hello"; Return "quit"])
            ++ new)%list
         /\ Trace.acquired new = []
         /\ Trace.released new = []
         /\ Trace.cleanups new = 0.
Proof.
  eexists _, _. split; [vm_compute; reflexivity|].
  eapply (chat_loop_keeps_client Script.W (Script.oracles_of Script.friendly)
            3 (Script.connected [Return "hello"; Return "quit"])).
  vm_compute. reflexivity.
Defined.

(** X14.  Starting from a fresh client, [connect_to_server] keeps the
    session attribute and the exit stack in step: however far it gets,
    the session is set exactly when the session context is on the exit
    stack; when it returns, both contexts are on the stack; and the bound
    model is never touched. *)
Theorem connect_session_on_stack :
  forall (W : Type) (o : oracles W) (path : string) (s : state W),
    session (self s) = None ->
    exit_stack (self s) = [] ->
    exists r s',
      Client.connect_to_server o path s = Some (r, s')
      /\ (session (self s') = Some tt
          <-> In SessionContext (exit_stack (self s')))
      /\ (forall u, r = Return u ->
                    session (self s') = Some tt
                    /\ length (exit_stack (self s')) = 2)
      /\ llm (self s') = llm (self s).
Proof.
  intros W o path s Hsession Hstack. unfold Client.connect_to_server.
  destruct (PyStr.endswith path ".py" || PyStr.endswith path ".js");
    cbn [negb].
  - unfold Client.enter_async_context; unfold_monad.
    cbn [world trace self exit_stack]; split_oracles;
      eexists _, _; (split; [reflexivity|]);
      cbn [self session exit_stack llm]; rewrite ?Hsession, ?Hstack;
      (split; [|split; [|reflexivity]]);
      try (intros u Hu; first [discriminate Hu | split; reflexivity]);
      (split; intros H; simpl in *;
       first [discriminate H | reflexivity | tauto
             | destruct H as [H|H]; [discriminate H | destruct H]]).
  - unfold raise, bind. eexists _, _. split; [reflexivity|].
    rewrite Hsession, Hstack. split; [|split; [|reflexivity]].
    + split; [discriminate | intros []].
    + intros u Hu. discriminate Hu.
Qed.

Lemma connect_session_on_stack_witness :
  exists r s',
    Client.connect_to_server (Script.oracles_of Script.mute_server)
      "server.py" (Script.built [])
    = Some (r, s')
    /\ (session (self s') = Some tt
        <-> In SessionContext (exit_stack (self s')))
    /\ (forall u, r = Return u ->
                  session (self s') = Some tt
                  /\ length (exit_stack (self s')) = 2)
    /\ llm (self s') = llm (self (Script.built [])).
Proof.
  apply (connect_session_on_stack Script.W
           (Script.oracles_of Script.mute_server) "server.py"
           (Script.built [])); reflexivity.
Defined.

(** ** The two ends of the access check *)

Module VerdictFacts.

Import Helpers.

Section WithWorld.

Context {W : Type} (o : oracles W).

Lemma inaccessible_all_answer (model_ids : list string) :
  Forall (fun model_id => access_request model_id <> None) model_ids ->
  (forall model_id request w, exists w',
      invoke_model o model_id request w = (Return tt, w')) ->
  forall s : state W,
  exists s' new,
    inaccessible o model_ids s = Some (Return [], s')
    /\ trace s' = (trace s ++ new)%list
    /\ length (Trace.invocations new) = length model_ids.
Proof.
  intros Hsup Hok. induction Hsup as [|id rest Hid _ IH]; intros s.
  - exists s, []. rewrite app_nil_r. repeat split.
  - cbn [inaccessible]. unfold bind at 1.
    rewrite AccessFacts.validate_model_access_step.
    destruct (access_request id) as [req|]; [|now elim Hid].
    unfold do_invoke_model.
    destruct (Hok id req (world s)) as (w' & ->).
    match goal with
    | |- context [bind (inaccessible o rest) _ ?s1] =>
        destruct (IH s1) as (s' & new & Hrun & Htr & Hlen)
    end.
    unfold bind, ret. rewrite Hrun. cbn [negb].
    eexists s', (_ :: new). split; [reflexivity|]. split.
    + rewrite Htr. cbn [trace]. now rewrite <- app_assoc.
    + unfold Trace.invocations in *. simpl. f_equal. exact Hlen.
Qed.

Lemma inaccessible_all_refused (model_ids : list string) :
  Forall (fun model_id => access_request model_id <> None) model_ids ->
  (forall model_id request w, exists msg w',
      invoke_model o model_id request w
      = (Raise (ClientError "AccessDeniedException" msg), w')) ->
  forall s : state W,
  exists s' new,
    inaccessible o model_ids s = Some (Return model_ids, s')
    /\ trace s' = (trace s ++ new)%list
    /\ length (Trace.invocations new) = length model_ids.
Proof.
  intros Hsup Hno. induction Hsup as [|id rest Hid _ IH]; intros s.
  - exists s, []. rewrite app_nil_r. repeat split.
  - cbn [inaccessible]. unfold bind at 1.
    rewrite AccessFacts.validate_model_access_step.
    destruct (access_request id) as [req|]; [|now elim Hid].
    unfold do_invoke_model.
    destruct (Hno id req (world s)) as (msg & w' & ->).
    cbn [Trace.access_denied String.eqb].
    change (String.eqb "AccessDeniedException" "AccessDeniedException")
      with true.
    match goal with
    | |- context [bind (inaccessible o rest) _ ?s1] =>
        destruct (IH s1) as (s' & new & Hrun & Htr & Hlen)
    end.
    unfold bind, ret. rewrite Hrun. cbn [negb].
    eexists s', (_ :: new). split; [reflexivity|]. split.
    + rewrite Htr. cbn [trace]. now rewrite <- app_assoc.
    + unfold Trace.invocations in *. simpl. f_equal. exact Hlen.
Qed.

End WithWorld.

End VerdictFacts.

(** X15.  As the docstring of [validate_models_access] says: for
    identifiers the check has requests for, when the provider answers
    every request the result is the empty list, and when it refuses
    access to every request the result is the whole input list, in its
    order; in both cases with one request per identifier. *)
Theorem validate_models_access_all_or_none :
  forall (W : Type) (o : oracles W) (model_ids : list string) (s : state W)
         (w0 : W),
    boto3_client o "bedrock-runtime" (world s) = (Return tt, w0) ->
    Forall (fun model_id => Helpers.access_request model_id <> None)
      model_ids ->
    ((forall model_id request w, exists w',
         invoke_model o model_id request w = (Return tt, w')) ->
     exists s' new,
       Helpers.validate_models_access o model_ids s = Some (Return [], s')
       /\ trace s' = (trace s ++ new)%list
       /\ length (Trace.invocations new) = length model_ids)
    /\ ((forall model_id request w, exists msg w',
            invoke_model o model_id request w
            = (Raise (ClientError "AccessDeniedException" msg), w')) ->
        exists s' new,
          Helpers.validate_models_access o model_ids s
          = Some (Return model_ids, s')
          /\ trace s' = (trace s ++ new)%list
          /\ length (Trace.invocations new) = length model_ids).
Proof.
  intros W o model_ids s w0 Hclient Hsup.
  split; intros Hall;
    unfold Helpers.validate_models_access, bind, call; rewrite Hclient.
  - apply (VerdictFacts.inaccessible_all_answer o model_ids Hsup Hall
             {| world := w0; trace := trace s; self := self s |}).
  - apply (VerdictFacts.inaccessible_all_refused o model_ids Hsup Hall
             {| world := w0; trace := trace s; self := self s |}).
Qed.

Lemma validate_models_access_all_or_none_witness :
  exists s' new,
    Helpers.validate_models_access (Script.oracles_of Script.denying)
      ["amazon.titan-text-express-v1"; Client.claude_model_id]
      (Script.start [])
    = Some (Return ["amazon.titan-text-express-v1"; Client.claude_model_id],
            s')
    /\ trace s' = (trace (Script.start []) ++ new)%list
    /\ length (Trace.invocations new) = 2.
Proof.
  assert (Hsup : Forall (fun model_id =>
                           Helpers.access_request model_id <> None)
                   ["amazon.titan-text-express-v1"; Client.claude_model_id]).
  { apply Forall_cons; [intros H; vm_compute in H; discriminate H|].
    apply Forall_cons; [intros H; vm_compute in H; discriminate H|].
    apply Forall_nil. }
  apply (proj2 (validate_models_access_all_or_none Script.W
                  (Script.oracles_of Script.denying)
                  ["amazon.titan-text-express-v1"; Client.claude_model_id]
                  (Script.start []) [] eq_refl Hsup)).
  intros model_id request w. exists "denied", w. reflexivity.
Defined.
